(** * dock402: the x402 chain adapters (EVM and Solana)

    A shallow embedding of [src/types/x402-protocol.ts],
    [src/types/evm-payment.ts] and [src/types/solana-payment.ts], and the
    properties of transaction building and local proof verification.

    Conventions of the embedding.
    - A JavaScript string is a [string]; every [ascii] stands for one UTF-16
      code unit below 256 (the Latin-1 range), which covers every address,
      amount and identifier the adapters handle.
    - A BigInt is a [Z]; a [number] that holds an integer is a [Z] too.
    - An optional field ([field?: T]) is an [option]; [None] is [undefined].
    - A call that may throw returns a [Js] completion. *)

From Stdlib Require Import ZArith List String Ascii Bool Lia.
Import ListNotations.

Local Open Scope Z_scope.

(** ** The JavaScript primitives the adapters call *)

Module Js.

Inductive JsError : Type :=
| SyntaxError
| RangeError
| TypeError.

(** A completion: a normal value or a thrown exception. *)
Inductive Js (A : Type) : Type :=
| Normal (a : A)
| Throw (e : JsError).

Arguments Normal {A} a.
Arguments Throw {A} e.

Definition ret {A : Type} (a : A) : Js A := Normal a.

Definition bind {A B : Type} (c : Js A) (k : A -> Js B) : Js B :=
  match c with
  | Normal a => k a
  | Throw e => Throw e
  end.

(** [try { c } catch (error) { h error }] *)
Definition try_catch {A : Type} (c : Js A) (h : JsError -> A) : A :=
  match c with
  | Normal a => a
  | Throw e => h e
  end.

Definition code (c : ascii) : Z := Z.of_N (N_of_ascii c).

Definition unit_of_code (z : Z) : ascii := ascii_of_N (Z.to_N z).

(** *** Strings *)

(** [String.prototype.toLowerCase] on one code unit below 256: the Unicode
    lower-case mapping moves A-Z and the Latin-1 capitals (U+00C0-U+00DE
    without the multiplication sign U+00D7) up by 32 and fixes the rest. *)
Definition lowerUnit (c : ascii) : ascii :=
  let n := code c in
  if ((65 <=? n) && (n <=? 90))
     || ((192 <=? n) && (n <=? 222) && negb (n =? 215))
  then unit_of_code (n + 32)
  else c.

Fixpoint toLowerCase (s : string) : string :=
  match s with
  | EmptyString => EmptyString
  | String c s' => String (lowerUnit c) (toLowerCase s')
  end.

(** [s.slice(beginIndex)] for a non-negative [beginIndex]. *)
Fixpoint slice (beginIndex : nat) (s : string) : string :=
  match beginIndex, s with
  | O, _ => s
  | S n, String _ s' => slice n s'
  | S _, EmptyString => EmptyString
  end.

Fixpoint fill (n : nat) (c : ascii) : string :=
  match n with
  | O => EmptyString
  | S n' => String c (fill n' c)
  end.

(** [s.padStart(targetLength, padString)] for a [padString] of one code
    unit: a string of [targetLength] or more units is returned as it is. *)
Definition padStart (targetLength : nat) (padUnit : ascii) (s : string) : string :=
  (fill (targetLength - String.length s) padUnit ++ s)%string.

(** [!!s]: a string is truthy unless it is empty. *)
Definition truthy (s : string) : bool :=
  match s with
  | EmptyString => false
  | String _ _ => true
  end.

(** *** BigInt *)

(** [StrWhiteSpaceChar]: WhiteSpace and LineTerminator, below 256. *)
Definition isStrWhiteSpace (c : ascii) : bool :=
  let n := code c in
  (n =? 9) || (n =? 10) || (n =? 11) || (n =? 12) || (n =? 13)
  || (n =? 32) || (n =? 160).

Fixpoint trimStart (cs : list ascii) : list ascii :=
  match cs with
  | [] => []
  | c :: cs' => if isStrWhiteSpace c then trimStart cs' else cs
  end.

Definition trim (cs : list ascii) : list ascii :=
  rev (trimStart (rev (trimStart cs))).

(** The value of a digit in the given radix, if it is one. *)
Definition digitValue (radix : Z) (c : ascii) : option Z :=
  let n := code c in
  let v :=
    if (48 <=? n) && (n <=? 57) then n - 48
    else if (97 <=? n) && (n <=? 122) then n - 87
    else if (65 <=? n) && (n <=? 90) then n - 55
    else radix in
  if v <? radix then Some v else None.

Fixpoint parseDigits (radix : Z) (cs : list ascii) (acc : Z) : option Z :=
  match cs with
  | [] => Some acc
  | c :: cs' =>
      match digitValue radix c with
      | Some d => parseDigits radix cs' (acc * radix + d)
      | None => None
      end
  end.

(** One or more digits. *)
Definition parseNumeral (radix : Z) (cs : list ascii) : option Z :=
  match cs with
  | [] => None
  | _ :: _ => parseDigits radix cs 0
  end.

(** [StringToBigInt]: the [StringIntegerLiteral] grammar. White space is
    trimmed; the empty literal is 0; a decimal numeral may carry a sign; a
    numeral with a [0x], [0o] or [0b] prefix may not; there are no
    separators, fractions or exponents. *)
Definition StringToBigInt (s : string) : option Z :=
  match trim (list_ascii_of_string s) with
  | [] => Some 0
  | "0"%char :: "x"%char :: ds | "0"%char :: "X"%char :: ds => parseNumeral 16 ds
  | "0"%char :: "o"%char :: ds | "0"%char :: "O"%char :: ds => parseNumeral 8 ds
  | "0"%char :: "b"%char :: ds | "0"%char :: "B"%char :: ds => parseNumeral 2 ds
  | "+"%char :: ds => parseNumeral 10 ds
  | "-"%char :: ds => option_map Z.opp (parseNumeral 10 ds)
  | ds => parseNumeral 10 ds
  end.

(** [BigInt(s)] for a string argument: a SyntaxError when [s] is no
    integer literal. *)
Definition BigInt (s : string) : Js Z :=
  match StringToBigInt s with
  | Some n => Normal n
  | None => Throw SyntaxError
  end.

Definition hexChar (d : Z) : ascii :=
  if d <? 10 then unit_of_code (48 + d) else unit_of_code (87 + d).

(** The hexadecimal digits of a positive integer, most significant first,
    in front of [acc]; no digit for 0. *)
Fixpoint hexDigits (fuel : nat) (n : Z) (acc : string) : string :=
  match fuel with
  | O => acc
  | S fuel' =>
      if n <=? 0 then acc
      else hexDigits fuel' (n / 16) (String (hexChar (n mod 16)) acc)
  end.

(** The number of binary digits bounds the number of hexadecimal ones. *)
Definition digitBound (n : Z) : nat := S (Z.to_nat (Z.log2 n)).

(** [BigInt.prototype.toString(16)]. *)
Definition toString16 (n : Z) : string :=
  if n =? 0 then "0"%string
  else if n <? 0 then String "-"%char (hexDigits (digitBound (- n)) (- n) EmptyString)
  else hexDigits (digitBound n) n EmptyString.

(** *** ArrayBuffer and DataView *)

(** [new ArrayBuffer(n)]: [n] zero bytes. *)
Definition ArrayBuffer (n : nat) : list Z := repeat 0 n.

(** The [k] low bytes of [v], least significant first. *)
Fixpoint le_bytes (k : nat) (v : Z) : list Z :=
  match k with
  | O => []
  | S k' => v mod 256 :: le_bytes k' (v / 256)
  end.

Definition orderBytes (littleEndian : bool) (bs : list Z) : list Z :=
  if littleEndian then bs else rev bs.

(** Store [bs] at [byteOffset]; a RangeError when they do not fit. *)
Definition setBytes (buffer : list Z) (byteOffset : nat) (bs : list Z)
  : Js (list Z) :=
  if (byteOffset + List.length bs <=? List.length buffer)%nat
  then Normal (firstn byteOffset buffer ++ bs
               ++ skipn (byteOffset + List.length bs) buffer)
  else Throw RangeError.

(** [view.setUint8(byteOffset, value)]: [value] modulo 2^8. *)
Definition setUint8 (buffer : list Z) (byteOffset : nat) (value : Z)
  : Js (list Z) :=
  setBytes buffer byteOffset (le_bytes 1 (value mod 2 ^ 8)).

(** [view.setUint32(byteOffset, value, littleEndian)]: [value] modulo 2^32. *)
Definition setUint32 (buffer : list Z) (byteOffset : nat) (value : Z)
  (littleEndian : bool) : Js (list Z) :=
  setBytes buffer byteOffset
    (orderBytes littleEndian (le_bytes 4 (value mod 2 ^ 32))).

(** [view.setBigUint64(byteOffset, value, littleEndian)]: ToBigUint64 takes
    [value] modulo 2^64, it never throws for a BigInt out of range. *)
Definition setBigUint64 (buffer : list Z) (byteOffset : nat) (value : Z)
  (littleEndian : bool) : Js (list Z) :=
  setBytes buffer byteOffset
    (orderBytes littleEndian (le_bytes 8 (value mod 2 ^ 64))).

(** [Array.from(new Uint8Array(buffer))]: the bytes as numbers. *)
Definition Array_from (buffer : list Z) : list Z := buffer.

End Js.

Declare Scope js_scope.
Delimit Scope js_scope with js.
Notation "x <- c ;; k" := (Js.bind c (fun x => k))
  (at level 61, c at next level, right associativity) : js_scope.

Import Js.
Local Open Scope js_scope.

(** ** The protocol envelope: [x402-protocol.ts] *)

Module X402.

Inductive X402Network : Type :=
| base_mainnet
| base_sepolia
| solana_mainnet
| solana_devnet
| polygon
| bsc
| sei
| peaq.

Definition X402Network_eqb (a b : X402Network) : bool :=
  match a, b with
  | base_mainnet, base_mainnet
  | base_sepolia, base_sepolia
  | solana_mainnet, solana_mainnet
  | solana_devnet, solana_devnet
  | polygon, polygon
  | bsc, bsc
  | sei, sei
  | peaq, peaq => true
  | _, _ => false
  end.

Inductive Version : Type := v1_0.

Inductive Scheme : Type := exact | max.

Inductive Currency : Type := USDC | SOL | ETH | BNB | MATIC | SEI | PEAQ.

(** [{ address: string }], the shape of both [price.asset] and
    [recipient]. *)
Record Account : Type := { address : string }.

Record Price : Type := {
  amount : string;
  currency : Currency;
  asset : option Account
}.

Record Resource : Type := {
  uri : string;
  description : option string
}.

(** [metadata] is a free-form object no adapter reads; its values are kept
    as strings. *)
Record X402PaymentSpec : Type := {
  version : Version;
  scheme : Scheme;
  network : X402Network;
  price : Price;
  recipient : Account;
  resource : Resource;
  metadata : option (list (string * string))
}.

(** [!spec.price.asset || spec.price.asset.address === sentinel], the test
    both adapters open with; an object is always truthy. *)
Definition assetIsAbsentOr (sentinel : string) (spec : X402PaymentSpec) : bool :=
  match asset (price spec) with
  | None => true
  | Some a => (address a =? sentinel)%string
  end.

(** [spec.price.asset!.address]: a TypeError on [undefined]. *)
Definition assetAddress (spec : X402PaymentSpec) : Js string :=
  match asset (price spec) with
  | Some a => Normal (address a)
  | None => Throw TypeError
  end.

(** [CHAIN_IDS], keyed by name. *)
Definition CHAIN_IDS : list (string * Z) :=
  [ ("BASE_MAINNET", 8453);
    ("BASE_SEPOLIA", 84532);
    ("POLYGON", 137);
    ("BSC", 56);
    ("BSC_TESTNET", 97);
    ("SEI", 1329);
    ("PEAQ", 3338) ]%string.

(** [USDC_ADDRESSES[network]]; the table has no entry for [sei] and
    [peaq]. *)
Definition USDC_ADDRESSES (n : X402Network) : option string :=
  match n with
  | base_mainnet => Some "0x833589fCD6eDb6E08f4c7C32D4f71b54bdA02913"
  | base_sepolia => Some "0x036CbD53842c5426634e7929541eC2318f3dCF7e"
  | polygon => Some "0x2791Bca1f2de4661ED88A30C99A7a9449Aa84174"
  | bsc => Some "0x8AC76a51cc950d9822D68b83fE1Ad97B32Cd580d"
  | solana_mainnet => Some "EPjFWdd5AufqSSqeM2qN1xzybapC8G4wEGGkZwyTDt1v"
  | solana_devnet => Some "4zMMC9srt5Ri5X14GAgXhaHii3GnPAEERYPJgZJDncDU"
  | sei | peaq => None
  end%string.

End X402.

(** ** The EVM adapter: [evm-payment.ts] *)

Module EVM.

Import X402.

(** [EVMNetwork = Extract<X402Network, ...>]: the six EVM members. *)
Definition isEVMNetwork (n : X402Network) : bool :=
  match n with
  | base_mainnet | base_sepolia | polygon | bsc | sei | peaq => true
  | solana_mainnet | solana_devnet => false
  end.

(** [chainId] is declared a [number]; [spec.network as EVMNetwork] is erased
    at run time, so it holds [undefined] for a key the table lacks. *)
Record EVMTransactionRequest : Type := {
  to : string;
  value : option string;
  data : option string;
  gasLimit : option string;
  maxFeePerGas : option string;
  maxPriorityFeePerGas : option string;
  chainId : option Z
}.

(** [X402PaymentProof] with the EVM extension, flattened. The declared
    type narrows [network] to [EVMNetwork]; the check compares it as the
    string it is, so the field ranges over every network here. *)
Record EVMPaymentProof : Type := {
  txHash : string;
  proof_network : X402Network;
  from : string;
  proof_to : string;
  proof_amount : string;
  timestamp : Z;
  blockNumber : Z;
  transactionIndex : option Z;
  gasUsed : option string;
  effectiveGasPrice : option string
}.

Definition zeroAddress : string := "0x0000000000000000000000000000000000000000".

(** [chainIds[network]] *)
Definition getChainId (network : X402Network) : option Z :=
  match network with
  | base_mainnet => Some 8453
  | base_sepolia => Some 84532
  | polygon => Some 137
  | bsc => Some 56
  | sei => Some 1329
  | peaq => Some 3338
  | solana_mainnet | solana_devnet => None
  end.

Definition functionSelector : string := "0xa9059cbb".

Definition encodeERC20Transfer (to_ amount_ : string) : Js string :=
  let paddedAddress := padStart 64 "0" (slice 2 to_) in
  n <- BigInt amount_ ;;
  let paddedAmount := padStart 64 "0" (toString16 n) in
  ret (functionSelector ++ paddedAddress ++ paddedAmount)%string.

Definition createEVMTransactionRequest (spec : X402PaymentSpec)
  : Js EVMTransactionRequest :=
  let isNativeToken := assetIsAbsentOr zeroAddress spec in
  if isNativeToken then
    ret {| to := address (recipient spec);
           value := Some (amount (price spec));
           data := None;
           gasLimit := None;
           maxFeePerGas := None;
           maxPriorityFeePerGas := None;
           chainId := getChainId (network spec) |}
  else
    transferData <- encodeERC20Transfer (address (recipient spec))
                                        (amount (price spec)) ;;
    assetAddr <- assetAddress spec ;;
    ret {| to := assetAddr;
           value := None;
           data := Some transferData;
           gasLimit := None;
           maxFeePerGas := None;
           maxPriorityFeePerGas := None;
           chainId := getChainId (network spec) |}.

(** The promise the [async] function returns resolves to this boolean; the
    network is not contacted, and [rpcUrl] is not read. *)
Definition verifyEVMPayment (proof : EVMPaymentProof) (spec : X402PaymentSpec)
  (rpcUrl : string) : bool :=
  try_catch
    (ret ((toLowerCase (proof_to proof) =? toLowerCase (address (recipient spec)))%string
          && (proof_amount proof =? amount (price spec))%string
          && X402Network_eqb (proof_network proof) (network spec)
          && truthy (txHash proof)))
    (fun _ => false).

End EVM.

(** ** The Solana adapter: [solana-payment.ts] *)

Module Solana.

Import X402.

Definition isSolanaNetwork (n : X402Network) : bool :=
  match n with
  | solana_mainnet | solana_devnet => true
  | _ => false
  end.

Record AccountMeta : Type := {
  pubkey : string;
  isSigner : bool;
  isWritable : bool
}.

Record SolanaInstruction : Type := {
  programId : string;
  keys : list AccountMeta;
  data : list Z
}.

Record ComputeBudget : Type := {
  units : option Z;
  microLamports : option Z
}.

Record SolanaTransactionRequest : Type := {
  recentBlockhash : string;
  feePayer : string;
  instructions : list SolanaInstruction;
  computeBudget : option ComputeBudget
}.

Inductive ConfirmationStatus : Type := processed | confirmed | finalized.

Definition ConfirmationStatus_eqb (a b : ConfirmationStatus) : bool :=
  match a, b with
  | processed, processed | confirmed, confirmed | finalized, finalized => true
  | _, _ => false
  end.

(** [X402PaymentProof] with the Solana extension, flattened; [network] as
    in [EVMPaymentProof]. *)
Record SolanaPaymentProof : Type := {
  txHash : string;
  proof_network : X402Network;
  from : string;
  proof_to : string;
  proof_amount : string;
  timestamp : Z;
  blockNumber : option Z;
  slot : Z;
  signature : string;
  confirmationStatus : ConfirmationStatus;
  fee : option Z
}.

Definition nativeSentinel : string := "native".

Definition systemProgram : string := "11111111111111111111111111111111".

Definition tokenProgram : string := "TokenkegQfeZyiNwAJbNbGKPFXCWuBvf9Ss623VQ5DA".

Definition encodeSOLTransfer (amount_ : string) : Js (list Z) :=
  let instruction := 2 in
  lamports <- BigInt amount_ ;;
  let buffer := ArrayBuffer 12 in
  buffer <- setUint32 buffer 0 instruction true ;;
  buffer <- setBigUint64 buffer 4 lamports true ;;
  ret (Array_from buffer).

Definition encodeSPLTokenTransfer (amount_ : string) : Js (list Z) :=
  let instruction := 3 in
  tokenAmount <- BigInt amount_ ;;
  let buffer := ArrayBuffer 9 in
  buffer <- setUint8 buffer 0 instruction ;;
  buffer <- setBigUint64 buffer 1 tokenAmount true ;;
  ret (Array_from buffer).

(** The placeholder derivation: [`${owner}_${mint}_ata`]. *)
Definition getAssociatedTokenAddress (owner mint : string) : string :=
  (owner ++ "_" ++ mint ++ "_ata")%string.

Definition createSolanaTransactionRequest (spec : X402PaymentSpec)
  (recentBlockhash_ feePayer_ : string) : Js SolanaTransactionRequest :=
  let isNativeSOL := assetIsAbsentOr nativeSentinel spec in
  if isNativeSOL then
    data_ <- encodeSOLTransfer (amount (price spec)) ;;
    ret {| recentBlockhash := recentBlockhash_;
           feePayer := feePayer_;
           instructions :=
             [ {| programId := systemProgram;
                  keys :=
                    [ {| pubkey := feePayer_; isSigner := true; isWritable := true |};
                      {| pubkey := address (recipient spec);
                         isSigner := false; isWritable := true |} ];
                  data := data_ |} ];
           computeBudget := None |}
  else
    mint <- assetAddress spec ;;
    let senderAccount := getAssociatedTokenAddress feePayer_ mint in
    let recipientAccount :=
      getAssociatedTokenAddress (address (recipient spec)) mint in
    data_ <- encodeSPLTokenTransfer (amount (price spec)) ;;
    ret {| recentBlockhash := recentBlockhash_;
           feePayer := feePayer_;
           instructions :=
             [ {| programId := tokenProgram;
                  keys :=
                    [ {| pubkey := senderAccount; isSigner := false; isWritable := true |};
                      {| pubkey := mint; isSigner := false; isWritable := false |};
                      {| pubkey := recipientAccount;
                         isSigner := false; isWritable := true |};
                      {| pubkey := feePayer_; isSigner := true; isWritable := false |} ];
                  data := data_ |} ];
           computeBudget := None |}.

(** The promise resolves to this boolean; [rpcUrl] is not read. *)
Definition verifySolanaPayment (proof : SolanaPaymentProof)
  (spec : X402PaymentSpec) (rpcUrl : string) : bool :=
  try_catch
    (ret ((toLowerCase (proof_to proof) =? toLowerCase (address (recipient spec)))%string
          && (proof_amount proof =? amount (price spec))%string
          && X402Network_eqb (proof_network proof) (network spec)
          && truthy (signature proof)
          && ConfirmationStatus_eqb (confirmationStatus proof) finalized))
    (fun _ => false).

(** [endpoints[network]]; the parameter is declared a [SolanaNetwork], and
    the table has no entry for the other networks. *)
Definition getSolanaRPC (network : X402Network) : option string :=
  match network with
  | solana_mainnet => Some "https://api.mainnet-beta.solana.com"
  | solana_devnet => Some "https://api.devnet.solana.com"
  | _ => None
  end%string.

End Solana.

(** ** The wire layouts the adapters target

    These definitions follow the words of the specification (the contract
    ABI's argument words, fixed-width little-endian integers), not the
    source; the adapters are compared with them below. *)

Module Layout.

Definition isByte (b : Z) : Prop := 0 <= b < 256.

(** The integer a byte sequence denotes, least significant byte first. *)
Fixpoint le_value (bs : list Z) : Z :=
  match bs with
  | [] => 0
  | b :: bs' => b + 256 * le_value bs'
  end.

(** [bs] is the [k]-byte little-endian unsigned encoding of [v]. *)
Definition encodesLE (k : nat) (v : Z) (bs : list Z) : Prop :=
  List.length bs = k /\ Forall isByte bs /\ le_value bs = v.

(** The integer a byte sequence denotes, most significant byte first. *)
Definition be_value (bs : list Z) : Z :=
  fold_left (fun acc b => acc * 256 + b) bs 0.

(** The [k] low bytes of [n], most significant first: [n] as a big-endian
    integer left-padded with zero bytes to [k] bytes. *)
Fixpoint be_bytes (k : nat) (n : Z) : list Z :=
  match k with
  | O => []
  | S k' => be_bytes k' (n / 256) ++ [n mod 256]
  end.

Definition hexOfByte (b : Z) : string :=
  String (hexChar (b / 16)) (String (hexChar (b mod 16)) EmptyString).

Fixpoint hexOfBytes (bs : list Z) : string :=
  match bs with
  | [] => EmptyString
  | b :: bs' => (hexOfByte b ++ hexOfBytes bs')%string
  end.

(** The decimal digits of a positive integer, most significant first, in
    front of [acc]. *)
Fixpoint decimalDigits (fuel : nat) (n : Z) (acc : list ascii) : list ascii :=
  match fuel with
  | O => acc
  | S fuel' =>
      if n <=? 0 then acc
      else decimalDigits fuel' (n / 10) (unit_of_code (48 + n mod 10) :: acc)
  end.

Definition isDecimalDigit (c : ascii) : Prop :=
  exists d, 0 <= d <= 9 /\ c = unit_of_code (48 + d).

(** An amount as the data model has it: a non-negative integer written in
    decimal. *)
Definition decimal (n : Z) : string :=
  if n <=? 0 then "0"%string
  else string_of_list_ascii (decimalDigits (digitBound n) n []).

(** [n] written with exactly [k] hexadecimal digits, the low [k] of them. *)
Fixpoint hexWord (k : nat) (n : Z) : string :=
  match k with
  | O => EmptyString
  | S k' => (hexWord k' (n / 16) ++ String (hexChar (n mod 16)) EmptyString)%string
  end.

(** A [uint256] argument word of the contract ABI, as hexadecimal text. *)
Definition uint256Word (n : Z) : string := hexOfBytes (be_bytes 32 n).

(** An [address] argument word: the 20 bytes of the address (its 40
    hexadecimal digits) behind 12 zero bytes. *)
Definition addressWord (digits : string) : string :=
  (hexOfBytes (repeat 0 12) ++ digits)%string.

(** The call data of [transfer(address,uint256)]: the selector
    [0xa9059cbb], then the two argument words. *)
Definition transferCallData (recipientDigits : string) (n : Z) : string :=
  ("0xa9059cbb" ++ addressWord recipientDigits ++ uint256Word n)%string.

End Layout.

(** ** Native transfers and program calls

    What the specification calls a native transfer and a contract or
    program call, as predicates on the requests. *)

Module Shape.

Import X402.

(** A native-value transfer: the payee is addressed directly, the value is
    the amount, and no call data is carried. *)
Definition isNativeTransfer (r : EVM.EVMTransactionRequest)
  (payee amount_ : string) : Prop :=
  EVM.to r = payee /\ EVM.value r = Some amount_ /\ EVM.data r = None.

(** A contract call: the contract is addressed, call data is carried and no
    native value. *)
Definition isContractCall (r : EVM.EVMTransactionRequest)
  (contract callData : string) : Prop :=
  EVM.to r = contract /\ EVM.value r = None /\ EVM.data r = Some callData.

(** One instruction of the System Program moving lamports from the fee
    payer to the payee. *)
Definition isSystemTransfer (r : Solana.SolanaTransactionRequest)
  (payer payee : string) (payload : list Z) : Prop :=
  Solana.instructions r =
    [ {| Solana.programId := Solana.systemProgram;
         Solana.keys :=
           [ {| Solana.pubkey := payer;
                Solana.isSigner := true; Solana.isWritable := true |};
             {| Solana.pubkey := payee;
                Solana.isSigner := false; Solana.isWritable := true |} ];
         Solana.data := payload |} ].

(** One instruction of the Token Program whose destination (the third
    account) is the payee's token account for the mint. *)
Definition isTokenTransfer (r : Solana.SolanaTransactionRequest)
  (payer payee mint : string) (payload : list Z) : Prop :=
  Solana.instructions r =
    [ {| Solana.programId := Solana.tokenProgram;
         Solana.keys :=
           [ {| Solana.pubkey := Solana.getAssociatedTokenAddress payer mint;
                Solana.isSigner := false; Solana.isWritable := true |};
             {| Solana.pubkey := mint;
                Solana.isSigner := false; Solana.isWritable := false |};
             {| Solana.pubkey := Solana.getAssociatedTokenAddress payee mint;
                Solana.isSigner := false; Solana.isWritable := true |};
             {| Solana.pubkey := payer;
                Solana.isSigner := true; Solana.isWritable := false |} ];
         Solana.data := payload |} ].

(** The fields of a specification the builders read. *)
Definition samePayment (s1 s2 : X402PaymentSpec) : Prop :=
  network s1 = network s2
  /\ amount (price s1) = amount (price s2)
  /\ asset (price s1) = asset (price s2)
  /\ recipient s1 = recipient s2.

(** Two requests that agree on every field but, possibly, the chain id. *)
Definition sameButChainId (r1 r2 : EVM.EVMTransactionRequest) : Prop :=
  EVM.to r1 = EVM.to r2
  /\ EVM.value r1 = EVM.value r2
  /\ EVM.data r1 = EVM.data r2
  /\ EVM.gasLimit r1 = EVM.gasLimit r2
  /\ EVM.maxFeePerGas r1 = EVM.maxFeePerGas r2
  /\ EVM.maxPriorityFeePerGas r1 = EVM.maxPriorityFeePerGas r2.

End Shape.

(** ** Concrete specifications and proofs *)

Module Examples.

Import X402.

Definition evmPayee : string := "0x52908400098527886E0F7030069857D2E4169EE7".

Definition usdcBase : string := "0x833589fCD6eDb6E08f4c7C32D4f71b54bdA02913".

Definition solPayee : string := "7xKXtg2CW87d97TXJSDpbD5jBkheTqA83TZRuJosgAsU".

Definition usdcSolana : string := "EPjFWdd5AufqSSqeM2qN1xzybapC8G4wEGGkZwyTDt1v".

Definition mkSpec (net : X402Network) (amt : string) (cur : Currency)
  (tok : option string) (payee resourceUri : string) : X402PaymentSpec :=
  {| version := v1_0;
     scheme := exact;
     network := net;
     price := {| amount := amt; currency := cur;
                 asset := option_map (fun a => {| address := a |}) tok |};
     recipient := {| address := payee |};
     resource := {| uri := resourceUri; description := None |};
     metadata := None |}.

Definition nativeOnBase : X402PaymentSpec :=
  mkSpec base_mainnet "10000000000000000" ETH None evmPayee "/api/endpoint".

Definition zeroAssetOnBase : X402PaymentSpec :=
  mkSpec base_mainnet "10000000000000000" ETH (Some EVM.zeroAddress) evmPayee
    "/api/endpoint".

Definition usdcOnBase : X402PaymentSpec :=
  mkSpec base_mainnet "2500000" USDC (Some usdcBase) evmPayee "/api/endpoint".

(** The same quote for another resource. *)
Definition usdcOnBaseOther : X402PaymentSpec :=
  mkSpec base_mainnet "2500000" USDC (Some usdcBase) evmPayee "/api/other".

(** 2^256, one more than the largest [uint256]. *)
Definition hugeUsdcOnBase : X402PaymentSpec :=
  mkSpec base_mainnet
    "115792089237316195423570985008687907853269984665640564039457584007913129639936"
    USDC (Some usdcBase) evmPayee "/api/endpoint".

Definition nativeOnSolana : X402PaymentSpec :=
  mkSpec solana_mainnet "10000000" SOL None solPayee "/api/endpoint".

Definition nativeOnSolanaOther : X402PaymentSpec :=
  mkSpec solana_mainnet "10000000" SOL None solPayee "/api/other".

Definition sentinelOnSolana : X402PaymentSpec :=
  mkSpec solana_mainnet "10000000" SOL (Some Solana.nativeSentinel) solPayee
    "/api/endpoint".

Definition zeroAssetOnSolana : X402PaymentSpec :=
  mkSpec solana_mainnet "10000000" SOL (Some EVM.zeroAddress) solPayee
    "/api/endpoint".

Definition usdcOnSolana : X402PaymentSpec :=
  mkSpec solana_mainnet "2500000" USDC (Some usdcSolana) solPayee "/api/endpoint".

(** 2^64 lamports, one more than a [u64] holds. *)
Definition overflowOnSolana : X402PaymentSpec :=
  mkSpec solana_mainnet "18446744073709551616" SOL None solPayee "/api/endpoint".

Definition blockhash : string := "EkSnNWid2cvwEVnVx9aBqawnmiCNiDgp3gUdkDPTKN1N".

Definition payer : string := "9WzDXwBbmkg8ZTbNMqUxvQRAyrZzDsGYdLVL9zYtAWWM".

Definition evmProof (hash sender payee amt : string) (time : Z)
  : EVM.EVMPaymentProof :=
  {| EVM.txHash := hash;
     EVM.proof_network := base_mainnet;
     EVM.from := sender;
     EVM.proof_to := payee;
     EVM.proof_amount := amt;
     EVM.timestamp := time;
     EVM.blockNumber := 21000000;
     EVM.transactionIndex := None;
     EVM.gasUsed := None;
     EVM.effectiveGasPrice := None |}.

(** The payee of [nativeOnBase] in lower-case hexadecimal digits. *)
Definition paidOnBase : EVM.EVMPaymentProof :=
  evmProof "0xabc123" "0x2222222222222222222222222222222222222222"
    "0x52908400098527886e0f7030069857d2e4169ee7" "10000000000000000"
    1700000000.

Definition paidOnBaseLater : EVM.EVMPaymentProof :=
  evmProof "0xabc123" "0x3333333333333333333333333333333333333333"
    "0x52908400098527886e0f7030069857d2e4169ee7" "10000000000000000"
    1700000999.

Definition solanaProof (sender payee : string) (status : Solana.ConfirmationStatus)
  (slot_ : Z) : Solana.SolanaPaymentProof :=
  {| Solana.txHash := "5VERv8NMvzbJMEkV8xnrLkEaWRtSz9CosKDYjCJjBRnb";
     Solana.proof_network := solana_mainnet;
     Solana.from := sender;
     Solana.proof_to := payee;
     Solana.proof_amount := "10000000";
     Solana.timestamp := 1700000000;
     Solana.blockNumber := None;
     Solana.slot := slot_;
     Solana.signature := "5VERv8NMvzbJMEkV8xnrLkEaWRtSz9CosKDYjCJjBRnb";
     Solana.confirmationStatus := status;
     Solana.fee := Some 5000 |}.

Definition confirmedOnSolana : Solana.SolanaPaymentProof :=
  solanaProof payer solPayee Solana.confirmed 250000000.

Definition finalizedOnSolana : Solana.SolanaPaymentProof :=
  solanaProof payer solPayee Solana.finalized 250000000.

Definition finalizedOnSolanaLater : Solana.SolanaPaymentProof :=
  solanaProof blockhash solPayee Solana.finalized 250000064.

(** The payee of [nativeOnSolana] written in lower case: as a base-58
    string, another account. *)
Definition finalizedToLowerCased : Solana.SolanaPaymentProof :=
  solanaProof payer "7xkxtg2cw87d97txjsdpbd5jbkhetqa83tzrujosgasu"
    Solana.finalized 250000000.

End Examples.

(** ** Text predicates and further inputs *)

Module Text.

(** Whether the code unit [c] occurs in [s]. *)
Fixpoint occurs (c : ascii) (s : string) : bool :=
  match s with
  | EmptyString => false
  | String c' s' => Ascii.eqb c c' || occurs c s'
  end.

(** A string of white space only; the empty string is one. *)
Definition isBlank (s : string) : bool :=
  forallb isStrWhiteSpace (list_ascii_of_string s).

(** The key of an instruction at a position, if there is one. *)
Definition keyAt (i : nat) (ins : Solana.SolanaInstruction) : option string :=
  option_map Solana.pubkey (nth_error (Solana.keys ins) i).

(** The accounts that sign an instruction. *)
Definition signers (ins : Solana.SolanaInstruction) : list string :=
  map Solana.pubkey (filter Solana.isSigner (Solana.keys ins)).

End Text.

Module MoreExamples.

Import X402 Examples.

(** The quote of [nativeOnSolana] with the amount written in hexadecimal. *)
Definition hexAmountOnSolana : X402PaymentSpec :=
  mkSpec solana_mainnet "0x989680" SOL None solPayee "/api/endpoint".

(** A payee that is the token contract itself. *)
Definition usdcToItself : X402PaymentSpec :=
  mkSpec base_mainnet "2500000" USDC (Some usdcBase) usdcBase "/api/endpoint".

Definition usdcOnPolygon : X402PaymentSpec :=
  mkSpec polygon "2500000" USDC
    (Some "0x2791Bca1f2de4661ED88A30C99A7a9449Aa84174"%string) evmPayee
    "/api/endpoint".

(** The proof of [paidOnBase] with the payee spelled as quoted. *)
Definition paidOnBaseAsQuoted : EVM.EVMPaymentProof :=
  evmProof "0xabc123" "0x2222222222222222222222222222222222222222"
    evmPayee "10000000000000000" 1700000000.

Definition paidUsdcToContract : EVM.EVMPaymentProof :=
  evmProof "0xabc123" "0x2222222222222222222222222222222222222222"
    usdcBase "2500000" 1700000000.

(** An amount written in SOL, not in lamports. *)
Definition fractionalOnSolana : X402PaymentSpec :=
  mkSpec solana_mainnet "0.01" SOL None solPayee "/api/endpoint".

(** The amount of [nativeOnBase], quoted in USDC. *)
Definition usdcSameAmountOnBase : X402PaymentSpec :=
  mkSpec base_mainnet "10000000000000000" USDC (Some usdcBase) evmPayee
    "/api/endpoint".

End MoreExamples.

(** * Properties *)

(** ** Local proof verification *)

Section Verification.

Import X402.

Lemma X402Network_eqb_eq (a b : X402Network) :
  X402Network_eqb a b = true <-> a = b.
Proof.
  split.
  - destruct a, b; simpl; intros H; try reflexivity; discriminate H.
  - intros ->. destruct b; reflexivity.
Qed.

Lemma ConfirmationStatus_eqb_eq (a b : Solana.ConfirmationStatus) :
  Solana.ConfirmationStatus_eqb a b = true <-> a = b.
Proof.
  split.
  - destruct a, b; simpl; intros H; try reflexivity; discriminate H.
  - intros ->. destruct b; reflexivity.
Qed.

Lemma truthy_true (s : string) : truthy s = true <-> s <> EmptyString.
Proof.
  destruct s; simpl; split; intros H.
  - discriminate H.
  - now contradiction H.
  - discriminate.
  - reflexivity.
Qed.

(** What the EVM check accepts, field by field. *)
Lemma verifyEVMPayment_true (proof : EVM.EVMPaymentProof)
  (spec : X402PaymentSpec) (rpcUrl : string) :
  EVM.verifyEVMPayment proof spec rpcUrl = true <->
  toLowerCase (EVM.proof_to proof) = toLowerCase (address (recipient spec))
  /\ EVM.proof_amount proof = amount (price spec)
  /\ EVM.proof_network proof = network spec
  /\ EVM.txHash proof <> EmptyString.
Proof.
  unfold EVM.verifyEVMPayment, try_catch, ret.
  rewrite !andb_true_iff, !String.eqb_eq, X402Network_eqb_eq, truthy_true.
  tauto.
Qed.

(** What the Solana check accepts, field by field. *)
Lemma verifySolanaPayment_true (proof : Solana.SolanaPaymentProof)
  (spec : X402PaymentSpec) (rpcUrl : string) :
  Solana.verifySolanaPayment proof spec rpcUrl = true <->
  toLowerCase (Solana.proof_to proof) = toLowerCase (address (recipient spec))
  /\ Solana.proof_amount proof = amount (price spec)
  /\ Solana.proof_network proof = network spec
  /\ Solana.signature proof <> EmptyString
  /\ Solana.confirmationStatus proof = Solana.finalized.
Proof.
  unfold Solana.verifySolanaPayment, try_catch, ret.
  rewrite !andb_true_iff, !String.eqb_eq, X402Network_eqb_eq, truthy_true,
    ConfirmationStatus_eqb_eq.
  tauto.
Qed.

End Verification.

Section VerificationClaims.

Import X402 Examples.

(** C1. [verifyEVMPayment] returns false whenever the proof's recipient
    (compared after lower-casing both sides), amount (compared as strings)
    or network differs from the specification's, whatever the other fields
    hold; it returns true exactly when the three match and [txHash] is a
    non-empty string. *)
Theorem verifyEVMPayment_rejects_any_mismatch
  (proof : EVM.EVMPaymentProof) (spec : X402PaymentSpec) (rpcUrl : string) :
  (toLowerCase (EVM.proof_to proof) <> toLowerCase (address (recipient spec))
   \/ EVM.proof_amount proof <> amount (price spec)
   \/ EVM.proof_network proof <> network spec ->
   EVM.verifyEVMPayment proof spec rpcUrl = false)
  /\ (EVM.verifyEVMPayment proof spec rpcUrl = true <->
      toLowerCase (EVM.proof_to proof) = toLowerCase (address (recipient spec))
      /\ EVM.proof_amount proof = amount (price spec)
      /\ EVM.proof_network proof = network spec
      /\ EVM.txHash proof <> EmptyString).
Proof.
  pose proof (verifyEVMPayment_true proof spec rpcUrl) as Hiff.
  split; [ | exact Hiff ].
  intros Hdiff.
  destruct (EVM.verifyEVMPayment proof spec rpcUrl); [ | reflexivity ].
  destruct (proj1 Hiff eq_refl) as (Hto & Hamt & Hnet & _).
  destruct Hdiff as [H | [H | H]]; contradiction.
Qed.

(** A proof for another amount is rejected; a proof whose payee differs
    from the quoted one in letter case only is accepted. *)
Lemma verifyEVMPayment_rejects_any_mismatch_witness :
  EVM.verifyEVMPayment paidOnBase usdcOnBase "https://mainnet.base.org" = false
  /\ EVM.verifyEVMPayment paidOnBase nativeOnBase "https://mainnet.base.org" = true.
Proof.
  split.
  - apply (proj1 (verifyEVMPayment_rejects_any_mismatch paidOnBase usdcOnBase _)).
    right; left. discriminate.
  - apply (proj2 (verifyEVMPayment_rejects_any_mismatch paidOnBase nativeOnBase _)).
    repeat split; try reflexivity. discriminate.
Defined.

(** C2. A Solana proof whose [confirmationStatus] is [processed] or
    [confirmed] is rejected whatever its other fields hold; an accepted
    proof is [finalized]. *)
Theorem verifySolanaPayment_requires_finalized
  (proof : Solana.SolanaPaymentProof) (spec : X402PaymentSpec) (rpcUrl : string) :
  (Solana.confirmationStatus proof = Solana.processed
   \/ Solana.confirmationStatus proof = Solana.confirmed ->
   Solana.verifySolanaPayment proof spec rpcUrl = false)
  /\ (Solana.verifySolanaPayment proof spec rpcUrl = true ->
      Solana.confirmationStatus proof = Solana.finalized).
Proof.
  pose proof (verifySolanaPayment_true proof spec rpcUrl) as Hiff.
  split.
  - intros Hstatus.
    destruct (Solana.verifySolanaPayment proof spec rpcUrl); [ | reflexivity ].
    destruct (proj1 Hiff eq_refl) as (_ & _ & _ & _ & Hfin).
    rewrite Hfin in Hstatus. destruct Hstatus; discriminate.
  - intros Hok. apply Hiff in Hok. tauto.
Qed.

(** The same payment is rejected while [confirmed] and accepted once
    [finalized]. *)
Lemma verifySolanaPayment_requires_finalized_witness :
  Solana.verifySolanaPayment confirmedOnSolana nativeOnSolana "" = false
  /\ Solana.confirmationStatus finalizedOnSolana = Solana.finalized.
Proof.
  split.
  - apply (proj1 (verifySolanaPayment_requires_finalized confirmedOnSolana
                    nativeOnSolana "")).
    right; reflexivity.
  - apply (proj2 (verifySolanaPayment_requires_finalized finalizedOnSolana
                    nativeOnSolana "")).
    reflexivity.
Defined.

(** C3, as the claim states it, fails: a finalized proof paying the
    lower-cased spelling of the quoted payee, a different string, is
    accepted. *)
Lemma verifySolanaPayment_accepts_other_case :
  Solana.proof_to finalizedToLowerCased <> address (recipient nativeOnSolana)
  /\ toLowerCase (Solana.proof_to finalizedToLowerCased)
     = toLowerCase (address (recipient nativeOnSolana))
  /\ Solana.verifySolanaPayment finalizedToLowerCased nativeOnSolana "" = true.
Proof.
  split; [ discriminate | split; reflexivity ].
Qed.

(** C3, amended. [verifySolanaPayment] compares the recipients after
    lower-casing both, as the EVM adapter does: it accepts exactly the
    finalized proofs with a non-empty signature whose lower-cased recipient,
    amount and network equal the specification's. *)
Theorem verifySolanaPayment_recipient_case_insensitive
  (proof : Solana.SolanaPaymentProof) (spec : X402PaymentSpec) (rpcUrl : string) :
  Solana.verifySolanaPayment proof spec rpcUrl = true <->
  toLowerCase (Solana.proof_to proof) = toLowerCase (address (recipient spec))
  /\ Solana.proof_amount proof = amount (price spec)
  /\ Solana.proof_network proof = network spec
  /\ Solana.signature proof <> EmptyString
  /\ Solana.confirmationStatus proof = Solana.finalized.
Proof.
  exact (verifySolanaPayment_true proof spec rpcUrl).
Qed.

(** C9. The local checks read [to], [amount], [network] and the
    transaction identifier ([txHash] on EVM; [signature] and
    [confirmationStatus] on Solana) and nothing else: proofs that agree on
    these get the same verdict, whatever [from], [timestamp], the block or
    slot, the gas or fee fields and the RPC endpoint are. *)
Theorem verification_ignores_ancillary_fields :
  (forall (p1 p2 : EVM.EVMPaymentProof) (spec : X402PaymentSpec)
          (rpcUrl1 rpcUrl2 : string),
      EVM.proof_to p1 = EVM.proof_to p2 ->
      EVM.proof_amount p1 = EVM.proof_amount p2 ->
      EVM.proof_network p1 = EVM.proof_network p2 ->
      EVM.txHash p1 = EVM.txHash p2 ->
      EVM.verifyEVMPayment p1 spec rpcUrl1 = EVM.verifyEVMPayment p2 spec rpcUrl2)
  /\ (forall (q1 q2 : Solana.SolanaPaymentProof) (spec : X402PaymentSpec)
             (rpcUrl1 rpcUrl2 : string),
      Solana.proof_to q1 = Solana.proof_to q2 ->
      Solana.proof_amount q1 = Solana.proof_amount q2 ->
      Solana.proof_network q1 = Solana.proof_network q2 ->
      Solana.signature q1 = Solana.signature q2 ->
      Solana.confirmationStatus q1 = Solana.confirmationStatus q2 ->
      Solana.verifySolanaPayment q1 spec rpcUrl1
      = Solana.verifySolanaPayment q2 spec rpcUrl2).
Proof.
  split.
  - intros p1 p2 spec rpcUrl1 rpcUrl2 Hto Hamt Hnet Hhash.
    unfold EVM.verifyEVMPayment. now rewrite Hto, Hamt, Hnet, Hhash.
  - intros q1 q2 spec rpcUrl1 rpcUrl2 Hto Hamt Hnet Hsig Hstatus.
    unfold Solana.verifySolanaPayment. now rewrite Hto, Hamt, Hnet, Hsig, Hstatus.
Qed.

(** Two proofs of one payment that differ in sender and time (EVM), and in
    sender and slot (Solana). *)
Lemma verification_ignores_ancillary_fields_witness :
  (EVM.from paidOnBase <> EVM.from paidOnBaseLater
   /\ EVM.verifyEVMPayment paidOnBase nativeOnBase "https://mainnet.base.org"
      = EVM.verifyEVMPayment paidOnBaseLater nativeOnBase "")
  /\ (Solana.slot finalizedOnSolana <> Solana.slot finalizedOnSolanaLater
      /\ Solana.verifySolanaPayment finalizedOnSolana nativeOnSolana ""
         = Solana.verifySolanaPayment finalizedOnSolanaLater nativeOnSolana
             "https://api.devnet.solana.com").
Proof.
  split; (split; [ discriminate | ]).
  - apply (proj1 verification_ignores_ancillary_fields); reflexivity.
  - apply (proj2 verification_ignores_ancillary_fields); reflexivity.
Defined.

End VerificationClaims.

(** ** Strings, digits and bytes *)

Section Strings.

Local Open Scope string_scope.

Lemma append_nil_r (s : string) : s ++ "" = s.
Proof. induction s as [ | c s IH ]; simpl; [ reflexivity | now rewrite IH ]. Qed.

Lemma append_assoc (s t u : string) : (s ++ t) ++ u = s ++ (t ++ u).
Proof. induction s as [ | c s IH ]; simpl; [ reflexivity | now rewrite IH ]. Qed.

Lemma length_append (s t : string) :
  String.length (s ++ t) = (String.length s + String.length t)%nat.
Proof. induction s as [ | c s IH ]; simpl; [ reflexivity | now rewrite IH ]. Qed.

Lemma length_fill (n : nat) (c : ascii) : String.length (fill n c) = n.
Proof. induction n as [ | n IH ]; simpl; [ reflexivity | now rewrite IH ]. Qed.

Lemma fill_snoc (n : nat) (c : ascii) : fill (S n) c = fill n c ++ String c "".
Proof. induction n as [ | n IH ]; [ reflexivity | ]. simpl in *. now rewrite <- IH. Qed.

Lemma padStart_long (k : nat) (c : ascii) (s : string) :
  (k <= String.length s)%nat -> padStart k c s = s.
Proof.
  intros Hk. unfold padStart.
  replace (k - String.length s)%nat with O by lia. reflexivity.
Qed.

Lemma length_padStart (k : nat) (c : ascii) (s : string) :
  String.length (padStart k c s) = Nat.max k (String.length s).
Proof. unfold padStart. rewrite length_append, length_fill. lia. Qed.

End Strings.

Section Hexadecimal.

Local Open Scope string_scope.
Local Open Scope Z_scope.

Lemma hexDigits_acc (fuel : nat) : forall (n : Z) (acc : string),
  hexDigits fuel n acc = hexDigits fuel n "" ++ acc.
Proof.
  induction fuel as [ | fuel IH ]; intros n acc; simpl; [ reflexivity | ].
  destruct (n <=? 0); [ reflexivity | ].
  rewrite (IH _ (String _ acc)), (IH _ (String _ "")).
  now rewrite append_assoc.
Qed.

Lemma hexWord_zero (k : nat) : Layout.hexWord k 0 = fill k "0".
Proof.
  induction k as [ | k IH ]; [ reflexivity | ].
  rewrite fill_snoc. simpl Layout.hexWord.
  now rewrite Zdiv_0_l, IH.
Qed.

(** With fuel to spare, the digits of [n] padded on the left to [k]
    places are the [k]-digit word of [n]. *)
Lemma hexDigits_hexWord (fuel : nat) : forall (k : nat) (n : Z),
  0 <= n < 16 ^ Z.of_nat fuel ->
  n < 16 ^ Z.of_nat k ->
  (String.length (hexDigits fuel n "") <= k)%nat
  /\ fill (k - String.length (hexDigits fuel n "")) "0" ++ hexDigits fuel n ""
     = Layout.hexWord k n.
Proof.
  induction fuel as [ | fuel IH ]; intros k n Hfuel Hk.
  - change (16 ^ Z.of_nat 0) with 1 in Hfuel.
    assert (n = 0) by lia. subst n. simpl.
    rewrite Nat.sub_0_r, append_nil_r, hexWord_zero. split; [ lia | reflexivity ].
  - simpl hexDigits. destruct (Z.leb_spec n 0) as [Hn | Hn].
    + assert (n = 0) by lia. subst n. simpl.
      rewrite Nat.sub_0_r, append_nil_r, hexWord_zero. split; [ lia | reflexivity ].
    + destruct k as [ | k ].
      { change (16 ^ Z.of_nat 0) with 1 in Hk. lia. }
      rewrite Nat2Z.inj_succ, Z.pow_succ_r in Hfuel, Hk by lia.
      assert (Hq : 0 <= n / 16 < 16 ^ Z.of_nat fuel).
      { split; [ apply Z.div_pos; lia | apply Z.div_lt_upper_bound; lia ]. }
      assert (Hqk : n / 16 < 16 ^ Z.of_nat k).
      { apply Z.div_lt_upper_bound; lia. }
      destruct (IH k (n / 16) Hq Hqk) as [Hlen Hword].
      rewrite hexDigits_acc, length_append. simpl String.length.
      split; [ lia | ].
      replace (S k - (String.length (hexDigits fuel (n / 16) "") + 1))%nat
        with (k - String.length (hexDigits fuel (n / 16) ""))%nat by lia.
      simpl Layout.hexWord. rewrite <- Hword. now rewrite append_assoc.
Qed.

Lemma digitBound_enough (n : Z) : 0 < n -> n < 16 ^ Z.of_nat (digitBound n).
Proof.
  intros Hn. unfold digitBound.
  rewrite Nat2Z.inj_succ, Z2Nat.id by apply Z.log2_nonneg.
  apply Z.lt_le_trans with (2 ^ Z.succ (Z.log2 n)).
  - apply Z.log2_spec; assumption.
  - apply Z.pow_le_mono_l. lia.
Qed.

(** [BigInt(..).toString(16).padStart(k, '0')] is the [k]-digit word. *)
Lemma padStart_toString16 (k : nat) (n : Z) :
  (1 <= k)%nat -> 0 <= n < 16 ^ Z.of_nat k ->
  padStart k "0" (toString16 n) = Layout.hexWord k n.
Proof.
  intros Hk Hn. unfold toString16.
  destruct (Z.eqb_spec n 0) as [-> | Hnz].
  - rewrite hexWord_zero. unfold padStart. simpl String.length.
    destruct k as [ | k ]; [ lia | ].
    replace (S k - 1)%nat with k by lia.
    now rewrite fill_snoc.
  - destruct (Z.ltb_spec n 0) as [Hneg | _]; [ lia | ].
    assert (Hpos : 0 < n) by lia.
    pose proof (digitBound_enough n Hpos) as Hfuel.
    destruct (hexDigits_hexWord (digitBound n) k n) as [_ Hword]; [ lia | lia | ].
    exact Hword.
Qed.

Lemma nibble_high (n : Z) : n mod 256 / 16 = n / 16 mod 16.
Proof.
  change 256 with (16 * 16).
  rewrite Z.rem_mul_r by lia.
  rewrite (Z.add_comm (n mod 16)), (Z.mul_comm 16), Z.div_add_l by lia.
  rewrite (Z.div_small (n mod 16)) by (apply Z.mod_pos_bound; lia). lia.
Qed.

Lemma nibble_low (n : Z) : (n mod 256) mod 16 = n mod 16.
Proof.
  change 256 with (16 * 16).
  rewrite Z.rem_mul_r by lia.
  rewrite (Z.mul_comm 16), Z.mod_add by lia.
  apply Z.mod_mod; lia.
Qed.

Lemma hexWord_bytes (k : nat) : forall n : Z,
  Layout.hexWord (2 * k) n = Layout.hexOfBytes (Layout.be_bytes k n).
Proof.
  assert (Happ : forall bs b,
             Layout.hexOfBytes (bs ++ [b])
             = Layout.hexOfBytes bs ++ Layout.hexOfByte b).
  { induction bs as [ | b' bs IH ]; intros b; simpl.
    - reflexivity.
    - now rewrite IH. }
  induction k as [ | k IH ]; intros n; [ reflexivity | ].
  replace (2 * S k)%nat with (S (S (2 * k))) by lia.
  simpl Layout.hexWord. simpl Layout.be_bytes.
  rewrite Happ, append_assoc. simpl.
  rewrite Z.div_div by lia. change (16 * 16) with 256.
  rewrite IH. f_equal.
  unfold Layout.hexOfByte. now rewrite nibble_high, nibble_low.
Qed.

(** The amount word of the adapter is the ABI word. *)
Lemma padStart_toString16_uint256 (n : Z) :
  0 <= n < 2 ^ 256 ->
  padStart 64 "0" (toString16 n) = Layout.uint256Word n.
Proof.
  intros Hn. unfold Layout.uint256Word.
  rewrite <- (hexWord_bytes 32 n).
  apply padStart_toString16; [ lia | ].
  change (16 ^ Z.of_nat 64) with (2 ^ 256). exact Hn.
Qed.

End Hexadecimal.

Section Bytes.

Local Open Scope Z_scope.

Lemma length_le_bytes (k : nat) : forall v : Z, List.length (le_bytes k v) = k.
Proof. induction k as [ | k IH ]; intros v; simpl; [ reflexivity | now rewrite IH ]. Qed.

Lemma le_bytes_isByte (k : nat) : forall v : Z, Forall Layout.isByte (le_bytes k v).
Proof.
  induction k as [ | k IH ]; intros v; simpl; constructor.
  - unfold Layout.isByte. apply Z.mod_pos_bound. lia.
  - apply IH.
Qed.

Lemma le_value_le_bytes (k : nat) : forall v : Z,
  Layout.le_value (le_bytes k v) = v mod 256 ^ Z.of_nat k.
Proof.
  induction k as [ | k IH ]; intros v.
  - simpl. now rewrite Z.mod_1_r.
  - cbn [le_bytes Layout.le_value].
    rewrite IH, Nat2Z.inj_succ, Z.pow_succ_r by lia.
    rewrite Z.rem_mul_r; [ reflexivity | lia | ].
    apply Z.pow_pos_nonneg; lia.
Qed.

(** [le_bytes k v] is the [k]-byte little-endian encoding of [v] modulo
    256^k: of [v] itself when it fits. *)
Lemma encodesLE_le_bytes (k : nat) (v : Z) :
  Layout.encodesLE k (v mod 256 ^ Z.of_nat k) (le_bytes k v).
Proof.
  repeat split.
  - apply length_le_bytes.
  - apply le_bytes_isByte.
  - apply le_value_le_bytes.
Qed.

(** An integer has one encoding of a given width. *)
Lemma encodesLE_unique (k : nat) (v : Z) : forall bs bs' : list Z,
  Layout.encodesLE k v bs -> Layout.encodesLE k v bs' -> bs = bs'.
Proof.
  revert v. induction k as [ | k IH ]; intros v bs bs' (Hl & Hb & Hv) (Hl' & Hb' & Hv').
  - destruct bs, bs'; try discriminate. reflexivity.
  - destruct bs as [ | b bs ]; [ discriminate | ].
    destruct bs' as [ | b' bs' ]; [ discriminate | ].
    pose proof (Forall_inv Hb) as Hb0. pose proof (Forall_inv_tail Hb) as Hbs.
    pose proof (Forall_inv Hb') as Hb0'. pose proof (Forall_inv_tail Hb') as Hbs'.
    cbn [Layout.le_value] in Hv, Hv'. unfold Layout.isByte in Hb0, Hb0'.
    assert (b = b') by lia. subst b'.
    f_equal. apply (IH (Layout.le_value bs)).
    + repeat split; [ now injection Hl | assumption ].
    + repeat split; [ now injection Hl' | assumption | lia ].
Qed.

Lemma be_value_snoc (bs : list Z) (b : Z) :
  Layout.be_value (bs ++ [b]) = Layout.be_value bs * 256 + b.
Proof. unfold Layout.be_value. now rewrite fold_left_app. Qed.

(** [be_bytes k n] denotes [n] modulo 256^k: [n] itself when it fits. *)
Lemma be_value_be_bytes (k : nat) : forall n : Z,
  Layout.be_value (Layout.be_bytes k n) = n mod 256 ^ Z.of_nat k.
Proof.
  induction k as [ | k IH ]; intros n.
  - simpl. now rewrite Z.mod_1_r.
  - simpl Layout.be_bytes.
    rewrite be_value_snoc, IH, Nat2Z.inj_succ, Z.pow_succ_r by lia.
    rewrite Z.rem_mul_r; [ lia | lia | ].
    apply Z.pow_pos_nonneg; lia.
Qed.

Lemma setBytes_fits (buffer : list Z) (byteOffset : nat) (bs : list Z) :
  (byteOffset + List.length bs <= List.length buffer)%nat ->
  setBytes buffer byteOffset bs
  = Normal (firstn byteOffset buffer ++ bs
            ++ skipn (byteOffset + List.length bs) buffer).
Proof.
  intros Hfit. unfold setBytes.
  now rewrite (proj2 (Nat.leb_le _ _) Hfit).
Qed.

End Bytes.

(** *** Amounts written in decimal are integer literals *)

Section Decimal.

Local Open Scope Z_scope.

Ltac each_digit d H :=
  assert (d = 0 \/ d = 1 \/ d = 2 \/ d = 3 \/ d = 4 \/ d = 5 \/ d = 6
          \/ d = 7 \/ d = 8 \/ d = 9) as H by lia;
  repeat (destruct H as [H | H]); subst d.

Lemma digitValue_decimal (d : Z) :
  0 <= d <= 9 -> digitValue 10 (unit_of_code (48 + d)) = Some d.
Proof. intros Hd. each_digit d H; reflexivity. Qed.

Lemma isDecimalDigit_not_space (c : ascii) :
  Layout.isDecimalDigit c -> isStrWhiteSpace c = false.
Proof. intros (d & Hd & ->). each_digit d H; reflexivity. Qed.

Lemma parseDigits_app (radix : Z) (l1 : list ascii) : forall (l2 : list ascii) (a : Z),
  parseDigits radix (l1 ++ l2) a
  = match parseDigits radix l1 a with
    | Some a' => parseDigits radix l2 a'
    | None => None
    end.
Proof.
  induction l1 as [ | c l1 IH ]; intros l2 a; simpl; [ reflexivity | ].
  destruct (digitValue radix c); [ apply IH | reflexivity ].
Qed.

Lemma decimalDigits_acc (fuel : nat) : forall (n : Z) (acc : list ascii),
  Layout.decimalDigits fuel n acc = Layout.decimalDigits fuel n [] ++ acc.
Proof.
  induction fuel as [ | fuel IH ]; intros n acc; simpl; [ reflexivity | ].
  destruct (n <=? 0); [ reflexivity | ].
  rewrite (IH _ (_ :: acc)), (IH _ [_]).
  now rewrite <- app_assoc.
Qed.

Lemma decimalDigits_digits (fuel : nat) : forall n : Z,
  0 <= n -> Forall Layout.isDecimalDigit (Layout.decimalDigits fuel n []).
Proof.
  induction fuel as [ | fuel IH ]; intros n Hn; simpl; [ constructor | ].
  destruct (Z.leb_spec n 0); [ constructor | ].
  rewrite decimalDigits_acc. apply Forall_app. split.
  - apply IH. apply Z.div_pos; lia.
  - constructor; [ | constructor ].
    exists (n mod 10). split; [ | reflexivity ].
    pose proof (Z.mod_pos_bound n 10). lia.
Qed.

Lemma parseDigits_decimalDigits (fuel : nat) : forall n : Z,
  0 <= n < 10 ^ Z.of_nat fuel ->
  parseDigits 10 (Layout.decimalDigits fuel n []) 0 = Some n.
Proof.
  induction fuel as [ | fuel IH ]; intros n Hn.
  - change (10 ^ Z.of_nat 0) with 1 in Hn. simpl. f_equal. lia.
  - cbn [Layout.decimalDigits]. destruct (Z.leb_spec n 0) as [Hz | Hpos].
    + simpl. f_equal. lia.
    + rewrite Nat2Z.inj_succ, Z.pow_succ_r in Hn by lia.
      rewrite decimalDigits_acc, parseDigits_app, IH.
      * cbn [parseDigits]. rewrite digitValue_decimal.
        -- f_equal. pose proof (Z.div_mod n 10). lia.
        -- pose proof (Z.mod_pos_bound n 10). lia.
      * split; [ apply Z.div_pos; lia | apply Z.div_lt_upper_bound; lia ].
Qed.

Lemma decimalDigits_nonempty (fuel : nat) (n : Z) :
  0 < n -> Layout.decimalDigits (S fuel) n [] <> [].
Proof.
  intros Hn. cbn [Layout.decimalDigits].
  destruct (Z.leb_spec n 0) as [Hz | _]; [ lia | ].
  rewrite decimalDigits_acc. intros Hnil.
  apply app_eq_nil in Hnil. destruct Hnil as [_ Hnil]. discriminate Hnil.
Qed.

Lemma digitBound_decimal (n : Z) : 0 < n -> n < 10 ^ Z.of_nat (digitBound n).
Proof.
  intros Hn. unfold digitBound.
  rewrite Nat2Z.inj_succ, Z2Nat.id by apply Z.log2_nonneg.
  apply Z.lt_le_trans with (2 ^ Z.succ (Z.log2 n)).
  - apply Z.log2_spec; assumption.
  - apply Z.pow_le_mono_l. lia.
Qed.

Lemma trimStart_digit (c : ascii) (cs : list ascii) :
  Layout.isDecimalDigit c -> trimStart (c :: cs) = c :: cs.
Proof. intros Hc. simpl. now rewrite (isDecimalDigit_not_space c Hc). Qed.

(** White space is trimmed off digits on neither side. *)
Lemma trim_digits (cs : list ascii) : Forall Layout.isDecimalDigit cs -> trim cs = cs.
Proof.
  intros Hcs. unfold trim.
  assert (Hstart : forall l, Forall Layout.isDecimalDigit l -> trimStart l = l).
  { intros [ | c l ] Hl; [ reflexivity | ].
    apply trimStart_digit. exact (Forall_inv Hl). }
  rewrite (Hstart cs Hcs), (Hstart (rev cs)).
  - apply rev_involutive.
  - now apply Forall_rev.
Qed.

(** A numeral of decimal digits alone is read in radix 10. *)
Lemma StringToBigInt_digits (cs : list ascii) :
  cs <> [] -> Forall Layout.isDecimalDigit cs ->
  StringToBigInt (string_of_list_ascii cs) = parseDigits 10 cs 0.
Proof.
  intros Hne Hcs. unfold StringToBigInt.
  rewrite list_ascii_of_string_of_list_ascii, (trim_digits cs Hcs).
  destruct cs as [ | c cs ]; [ now contradiction Hne | ].
  destruct (Forall_inv Hcs) as (d & Hd & ->).
  destruct cs as [ | c' cs ].
  - each_digit d H; reflexivity.
  - destruct (Forall_inv (Forall_inv_tail Hcs)) as (d' & Hd' & ->).
    each_digit d H; try reflexivity.
    each_digit d' H'; reflexivity.
Qed.

(** [BigInt] reads the decimal writing of a non-negative integer as that
    integer. *)
Lemma BigInt_decimal (n : Z) : 0 <= n -> BigInt (Layout.decimal n) = Normal n.
Proof.
  intros Hn. unfold BigInt, Layout.decimal.
  destruct (Z.leb_spec n 0) as [Hz | Hpos].
  - assert (n = 0) by lia. subst n. reflexivity.
  - rewrite StringToBigInt_digits.
    + rewrite parseDigits_decimalDigits; [ reflexivity | ].
      split; [ lia | now apply digitBound_decimal ].
    + now apply decimalDigits_nonempty.
    + apply decimalDigits_digits. lia.
Qed.

End Decimal.

Section Encoders.

Import X402.

Lemma encodeSOLTransfer_Normal (amount_ : string) (n : Z) :
  BigInt amount_ = Normal n ->
  Solana.encodeSOLTransfer amount_
  = Normal (le_bytes 4 2 ++ le_bytes 8 (n mod 2 ^ 64)).
Proof.
  intros Hn. unfold Solana.encodeSOLTransfer. rewrite Hn.
  unfold bind at 1. unfold setUint32.
  rewrite setBytes_fits by (simpl; lia).
  unfold bind at 1. unfold setBigUint64, orderBytes.
  rewrite setBytes_fits by (rewrite length_le_bytes; simpl; lia).
  rewrite length_le_bytes. reflexivity.
Qed.

Lemma encodeSPLTokenTransfer_Normal (amount_ : string) (n : Z) :
  BigInt amount_ = Normal n ->
  Solana.encodeSPLTokenTransfer amount_
  = Normal (le_bytes 1 3 ++ le_bytes 8 (n mod 2 ^ 64)).
Proof.
  intros Hn. unfold Solana.encodeSPLTokenTransfer. rewrite Hn.
  unfold bind at 1. unfold setUint8.
  rewrite setBytes_fits by (simpl; lia).
  unfold bind at 1. unfold setBigUint64, orderBytes.
  rewrite setBytes_fits by (rewrite length_le_bytes; simpl; lia).
  rewrite length_le_bytes. reflexivity.
Qed.

Lemma BigInt_cases (s : string) :
  (exists n, StringToBigInt s = Some n /\ BigInt s = Normal n)
  \/ (StringToBigInt s = None /\ BigInt s = Throw SyntaxError).
Proof.
  unfold BigInt. destruct (StringToBigInt s) as [ n | ].
  - left. now exists n.
  - right. split; reflexivity.
Qed.

Lemma encodeERC20Transfer_Normal (to_ amount_ : string) (n : Z) :
  BigInt amount_ = Normal n ->
  EVM.encodeERC20Transfer to_ amount_
  = Normal (EVM.functionSelector ++ padStart 64 "0" (slice 2 to_)
            ++ padStart 64 "0" (toString16 n))%string.
Proof. intros Hn. unfold EVM.encodeERC20Transfer. now rewrite Hn. Qed.

Lemma encodeERC20Transfer_Throw (to_ amount_ : string) (e : JsError) :
  BigInt amount_ = Throw e -> EVM.encodeERC20Transfer to_ amount_ = Throw e.
Proof. intros Hn. unfold EVM.encodeERC20Transfer. now rewrite Hn. Qed.

End Encoders.

(** ** Transaction building *)

Section Builders.

Import X402.

Lemma assetIsAbsentOr_false (sentinel : string) (spec : X402PaymentSpec) :
  assetIsAbsentOr sentinel spec = false <->
  exists a, asset (price spec) = Some a /\ address a <> sentinel.
Proof.
  unfold assetIsAbsentOr. destruct (asset (price spec)) as [ a | ].
  - rewrite String.eqb_neq. split.
    + intros Hne. exists a. now split.
    + intros (a' & Ha & Hne). now injection Ha as ->.
  - split; [ discriminate | ]. intros (a & Ha & _). discriminate Ha.
Qed.

Lemma assetIsAbsentOr_set (sentinel : string) (spec : X402PaymentSpec) (a : Account) :
  asset (price spec) = Some a -> address a <> sentinel ->
  assetIsAbsentOr sentinel spec = false /\ assetAddress spec = Normal (address a).
Proof.
  intros Ha Hne. split.
  - apply assetIsAbsentOr_false. now exists a.
  - unfold assetAddress. now rewrite Ha.
Qed.

(** The native branch of the EVM builder: it cannot throw. *)
Lemma createEVMTransactionRequest_native (spec : X402PaymentSpec) :
  assetIsAbsentOr EVM.zeroAddress spec = true ->
  EVM.createEVMTransactionRequest spec
  = Normal {| EVM.to := address (recipient spec);
              EVM.value := Some (amount (price spec));
              EVM.data := None;
              EVM.gasLimit := None;
              EVM.maxFeePerGas := None;
              EVM.maxPriorityFeePerGas := None;
              EVM.chainId := EVM.getChainId (network spec) |}.
Proof. intros Hnat. unfold EVM.createEVMTransactionRequest. now rewrite Hnat. Qed.

(** The token branch of the EVM builder on an amount [BigInt] reads. *)
Lemma createEVMTransactionRequest_token (spec : X402PaymentSpec) (a : Account) (n : Z) :
  asset (price spec) = Some a -> address a <> EVM.zeroAddress ->
  BigInt (amount (price spec)) = Normal n ->
  EVM.createEVMTransactionRequest spec
  = Normal {| EVM.to := address a;
              EVM.value := None;
              EVM.data :=
                Some (EVM.functionSelector
                      ++ padStart 64 "0" (slice 2 (address (recipient spec)))
                      ++ padStart 64 "0" (toString16 n))%string;
              EVM.gasLimit := None;
              EVM.maxFeePerGas := None;
              EVM.maxPriorityFeePerGas := None;
              EVM.chainId := EVM.getChainId (network spec) |}.
Proof.
  intros Ha Hne Hn.
  destruct (assetIsAbsentOr_set EVM.zeroAddress spec a Ha Hne) as [Hnat Haddr].
  unfold EVM.createEVMTransactionRequest.
  rewrite Hnat, (encodeERC20Transfer_Normal _ _ n Hn), Haddr. reflexivity.
Qed.

(** The token branch on an amount [BigInt] rejects. *)
Lemma createEVMTransactionRequest_token_Throw (spec : X402PaymentSpec) :
  assetIsAbsentOr EVM.zeroAddress spec = false ->
  StringToBigInt (amount (price spec)) = None ->
  EVM.createEVMTransactionRequest spec = Throw SyntaxError.
Proof.
  intros Hnat Hn. unfold EVM.createEVMTransactionRequest.
  rewrite Hnat. unfold EVM.encodeERC20Transfer, BigInt. now rewrite Hn.
Qed.

(** The chain-id table covers the EVM family and nothing else. *)
Lemma getChainId_defined (n : X402Network) :
  EVM.isEVMNetwork n = true <-> EVM.getChainId n <> None.
Proof.
  destruct n; simpl; split; intros H; try reflexivity; try discriminate;
    now contradiction H.
Qed.

(** Every outcome of the EVM builder. *)
Lemma createEVMTransactionRequest_cases (spec : X402PaymentSpec) :
  (assetIsAbsentOr EVM.zeroAddress spec = true
   /\ EVM.createEVMTransactionRequest spec
      = Normal {| EVM.to := address (recipient spec);
                  EVM.value := Some (amount (price spec));
                  EVM.data := None;
                  EVM.gasLimit := None;
                  EVM.maxFeePerGas := None;
                  EVM.maxPriorityFeePerGas := None;
                  EVM.chainId := EVM.getChainId (network spec) |})
  \/ (exists a n,
        assetIsAbsentOr EVM.zeroAddress spec = false
        /\ asset (price spec) = Some a
        /\ StringToBigInt (amount (price spec)) = Some n
        /\ EVM.createEVMTransactionRequest spec
           = Normal {| EVM.to := address a;
                       EVM.value := None;
                       EVM.data :=
                         Some (EVM.functionSelector
                               ++ padStart 64 "0" (slice 2 (address (recipient spec)))
                               ++ padStart 64 "0" (toString16 n))%string;
                       EVM.gasLimit := None;
                       EVM.maxFeePerGas := None;
                       EVM.maxPriorityFeePerGas := None;
                       EVM.chainId := EVM.getChainId (network spec) |})
  \/ (assetIsAbsentOr EVM.zeroAddress spec = false
      /\ StringToBigInt (amount (price spec)) = None
      /\ EVM.createEVMTransactionRequest spec = Throw SyntaxError).
Proof.
  destruct (assetIsAbsentOr EVM.zeroAddress spec) eqn:Hnat.
  - left. split; [ reflexivity | ]. now apply createEVMTransactionRequest_native.
  - right.
    destruct (proj1 (assetIsAbsentOr_false _ _) Hnat) as (a & Ha & Hne).
    destruct (BigInt_cases (amount (price spec))) as [(n & Hs & Hn) | (Hs & Hn)].
    + left. exists a, n. repeat split; try assumption.
      now apply createEVMTransactionRequest_token.
    + right. repeat split; try assumption.
      now apply createEVMTransactionRequest_token_Throw.
Qed.

(** The native branch of the Solana builder on an amount [BigInt] reads. *)
Lemma createSolanaTransactionRequest_native (spec : X402PaymentSpec)
  (recentBlockhash feePayer : string) (n : Z) :
  assetIsAbsentOr Solana.nativeSentinel spec = true ->
  BigInt (amount (price spec)) = Normal n ->
  Solana.createSolanaTransactionRequest spec recentBlockhash feePayer
  = Normal
      {| Solana.recentBlockhash := recentBlockhash;
         Solana.feePayer := feePayer;
         Solana.instructions :=
           [ {| Solana.programId := Solana.systemProgram;
                Solana.keys :=
                  [ {| Solana.pubkey := feePayer;
                       Solana.isSigner := true; Solana.isWritable := true |};
                    {| Solana.pubkey := address (recipient spec);
                       Solana.isSigner := false; Solana.isWritable := true |} ];
                Solana.data := le_bytes 4 2 ++ le_bytes 8 (n mod 2 ^ 64) |} ];
         Solana.computeBudget := None |}.
Proof.
  intros Hnat Hn. unfold Solana.createSolanaTransactionRequest.
  rewrite Hnat, (encodeSOLTransfer_Normal _ n Hn). reflexivity.
Qed.

(** The token branch of the Solana builder on an amount [BigInt] reads. *)
Lemma createSolanaTransactionRequest_token (spec : X402PaymentSpec)
  (recentBlockhash feePayer : string) (a : Account) (n : Z) :
  asset (price spec) = Some a -> address a <> Solana.nativeSentinel ->
  BigInt (amount (price spec)) = Normal n ->
  Solana.createSolanaTransactionRequest spec recentBlockhash feePayer
  = Normal
      {| Solana.recentBlockhash := recentBlockhash;
         Solana.feePayer := feePayer;
         Solana.instructions :=
           [ {| Solana.programId := Solana.tokenProgram;
                Solana.keys :=
                  [ {| Solana.pubkey :=
                         Solana.getAssociatedTokenAddress feePayer (address a);
                       Solana.isSigner := false; Solana.isWritable := true |};
                    {| Solana.pubkey := address a;
                       Solana.isSigner := false; Solana.isWritable := false |};
                    {| Solana.pubkey :=
                         Solana.getAssociatedTokenAddress
                           (address (recipient spec)) (address a);
                       Solana.isSigner := false; Solana.isWritable := true |};
                    {| Solana.pubkey := feePayer;
                       Solana.isSigner := true; Solana.isWritable := false |} ];
                Solana.data := le_bytes 1 3 ++ le_bytes 8 (n mod 2 ^ 64) |} ];
         Solana.computeBudget := None |}.
Proof.
  intros Ha Hne Hn.
  destruct (assetIsAbsentOr_set Solana.nativeSentinel spec a Ha Hne) as [Hnat Haddr].
  unfold Solana.createSolanaTransactionRequest.
  rewrite Hnat, Haddr, (encodeSPLTokenTransfer_Normal _ n Hn). reflexivity.
Qed.

Lemma samePayment_refl (spec : X402PaymentSpec) : Shape.samePayment spec spec.
Proof. repeat split. Qed.

Lemma length_be_bytes (k : nat) : forall n : Z,
  List.length (Layout.be_bytes k n) = k.
Proof.
  induction k as [ | k IH ]; intros n; simpl; [ reflexivity | ].
  rewrite length_app, IH. simpl. lia.
Qed.

Lemma length_hexOfBytes (bs : list Z) :
  String.length (Layout.hexOfBytes bs) = (2 * List.length bs)%nat.
Proof.
  induction bs as [ | b bs IH ]; [ reflexivity | ].
  simpl Layout.hexOfBytes. simpl String.length. simpl List.length. lia.
Qed.

(** Call data of [transfer] is 4 + 32 + 32 bytes behind the [0x] mark when
    the address has its 40 digits. *)
Lemma length_transferCallData (digits : string) (n : Z) :
  String.length (Layout.transferCallData digits n)
  = (10 + (24 + String.length digits) + 64)%nat.
Proof.
  unfold Layout.transferCallData, Layout.addressWord, Layout.uint256Word.
  rewrite !length_append, !length_hexOfBytes, length_be_bytes, repeat_length.
  reflexivity.
Qed.

End Builders.

Section BuilderClaims.

Import X402 Examples.

(** C4, as the claim states it, fails: for a native payment quoted on
    [solana-mainnet] the EVM builder raises nothing and returns a request,
    the chain id of which is [undefined]. *)
Lemma createEVMTransactionRequest_accepts_solana :
  EVM.isEVMNetwork (network nativeOnSolana) = false
  /\ EVM.createEVMTransactionRequest nativeOnSolana
     = Normal {| EVM.to := "7xKXtg2CW87d97TXJSDpbD5jBkheTqA83TZRuJosgAsU";
                 EVM.value := Some "10000000"%string;
                 EVM.data := None;
                 EVM.gasLimit := None;
                 EVM.maxFeePerGas := None;
                 EVM.maxPriorityFeePerGas := None;
                 EVM.chainId := None |}.
Proof. split; reflexivity. Qed.

(** C4, amended. For a specification whose network is outside the EVM
    family [createEVMTransactionRequest] raises no error on account of the
    network: it builds the request as for any network, and the request's
    [chainId] is [undefined] since the chain-id table has no entry. Its one
    failure is the SyntaxError of [BigInt] on a token amount that is no
    integer literal.
    - Asset absent or the zero address: the request is the native transfer
      of [price.amount] to [recipient.address], without a chain id.
    - Any other asset, on an amount [BigInt] reads: the request is the call
      of the asset's contract with the encoded transfer, without a chain
      id.
    - Any other asset, on any other amount: SyntaxError.
    - Against a specification with the same price and recipient on any
      network: both fail alike, or both return requests that agree on
      every field but the chain id. *)
Theorem createEVMTransactionRequest_unchecked_network (spec : X402PaymentSpec) :
  EVM.isEVMNetwork (network spec) = false ->
  ((assetIsAbsentOr EVM.zeroAddress spec = true
    /\ EVM.createEVMTransactionRequest spec
       = Normal {| EVM.to := address (recipient spec);
                   EVM.value := Some (amount (price spec));
                   EVM.data := None;
                   EVM.gasLimit := None;
                   EVM.maxFeePerGas := None;
                   EVM.maxPriorityFeePerGas := None;
                   EVM.chainId := None |})
   \/ (exists a n,
         asset (price spec) = Some a
         /\ address a <> EVM.zeroAddress
         /\ StringToBigInt (amount (price spec)) = Some n
         /\ EVM.createEVMTransactionRequest spec
            = Normal {| EVM.to := address a;
                        EVM.value := None;
                        EVM.data :=
                          Some (EVM.functionSelector
                                ++ padStart 64 "0" (slice 2 (address (recipient spec)))
                                ++ padStart 64 "0" (toString16 n))%string;
                        EVM.gasLimit := None;
                        EVM.maxFeePerGas := None;
                        EVM.maxPriorityFeePerGas := None;
                        EVM.chainId := None |})
   \/ (assetIsAbsentOr EVM.zeroAddress spec = false
       /\ StringToBigInt (amount (price spec)) = None
       /\ EVM.createEVMTransactionRequest spec = Throw SyntaxError))
  /\ (forall other : X402PaymentSpec,
        price other = price spec ->
        recipient other = recipient spec ->
        match EVM.createEVMTransactionRequest spec,
              EVM.createEVMTransactionRequest other with
        | Normal r, Normal r' =>
            Shape.sameButChainId r r'
            /\ EVM.chainId r = None
            /\ EVM.chainId r' = EVM.getChainId (network other)
        | Throw e, Throw e' => e = e'
        | _, _ => False
        end).
Proof.
  intros Hnet.
  assert (Hid : EVM.getChainId (network spec) = None).
  { destruct (network spec); try discriminate Hnet; reflexivity. }
  split.
  - destruct (createEVMTransactionRequest_cases spec)
      as [(Hnat & Hr) | [(a & n & Hnat & Ha & Hs & Hr) | (Hnat & Hs & Hr)]].
    + left. split; [ exact Hnat | ]. now rewrite Hr, Hid.
    + right; left. exists a, n.
      destruct (proj1 (assetIsAbsentOr_false _ _) Hnat) as (a' & Ha' & Hne).
      assert (a' = a) by congruence. subst a'.
      repeat split; try assumption. now rewrite Hr, Hid.
    + right; right. now repeat split.
  - intros other Hprice Hrcpt.
    assert (Hsame : assetIsAbsentOr EVM.zeroAddress other
                    = assetIsAbsentOr EVM.zeroAddress spec).
    { unfold assetIsAbsentOr. now rewrite Hprice. }
    destruct (createEVMTransactionRequest_cases spec)
      as [(Hnat & Hr) | [(a & n & Hnat & Ha & Hs & Hr) | (Hnat & Hs & Hr)]];
      destruct (createEVMTransactionRequest_cases other)
        as [(Hnat' & Hr') | [(a' & n' & Hnat' & Ha' & Hs' & Hr')
                            | (Hnat' & Hs' & Hr')]];
      rewrite Hr, Hr'; rewrite Hprice in *; try congruence.
    + rewrite Hrcpt. repeat split. exact Hid.
    + assert (a' = a) by congruence. assert (n' = n) by congruence. subst a' n'.
      rewrite Hrcpt. repeat split. exact Hid.
Qed.

(** 2.5 USDC quoted on Solana, against the same quote on Base. *)
Lemma createEVMTransactionRequest_unchecked_network_witness :
  EVM.createEVMTransactionRequest usdcOnSolana
  = Normal {| EVM.to := usdcSolana;
              EVM.value := None;
              EVM.data :=
                Some (EVM.functionSelector
                      ++ padStart 64 "0" (slice 2 solPayee)
                      ++ padStart 64 "0" (toString16 2500000))%string;
              EVM.gasLimit := None;
              EVM.maxFeePerGas := None;
              EVM.maxPriorityFeePerGas := None;
              EVM.chainId := None |}
  /\ match EVM.createEVMTransactionRequest nativeOnSolana,
           EVM.createEVMTransactionRequest
             (mkSpec base_mainnet "10000000" SOL None solPayee "/api/endpoint") with
     | Normal r, Normal r' =>
         Shape.sameButChainId r r'
         /\ EVM.chainId r = None
         /\ EVM.chainId r' = Some 8453
     | Throw e, Throw e' => e = e'
     | _, _ => False
     end.
Proof.
  split.
  - destruct (proj1 (createEVMTransactionRequest_unchecked_network usdcOnSolana
                       eq_refl))
      as [(Hnat & _) | [(a & n & Ha & _ & Hs & Hr) | (_ & Hs & _)]].
    + discriminate Hnat.
    + injection Ha as <-. injection Hs as <-. exact Hr.
    + discriminate Hs.
  - apply (proj2 (createEVMTransactionRequest_unchecked_network nativeOnSolana
                    eq_refl)
             (mkSpec base_mainnet "10000000" SOL None solPayee "/api/endpoint"));
      reflexivity.
Defined.

(** C10. A request [createEVMTransactionRequest] returns has exactly one of
    [value] and [data] set: [value] alone when the asset is absent or the
    zero address, [data] alone otherwise; [gasLimit], [maxFeePerGas] and
    [maxPriorityFeePerGas] are never set. The builder returns a request
    unless [BigInt] rejects the amount of a token payment. *)
Theorem createEVMTransactionRequest_value_xor_data (spec : X402PaymentSpec) :
  match EVM.createEVMTransactionRequest spec with
  | Normal r =>
      (if assetIsAbsentOr EVM.zeroAddress spec
       then EVM.value r = Some (amount (price spec)) /\ EVM.data r = None
       else EVM.value r = None /\ EVM.data r <> None)
      /\ (EVM.value r = None <-> EVM.data r <> None)
      /\ EVM.gasLimit r = None
      /\ EVM.maxFeePerGas r = None
      /\ EVM.maxPriorityFeePerGas r = None
  | Throw e =>
      e = SyntaxError
      /\ assetIsAbsentOr EVM.zeroAddress spec = false
      /\ StringToBigInt (amount (price spec)) = None
  end.
Proof.
  destruct (createEVMTransactionRequest_cases spec)
    as [(Hnat & Hr) | [(a & n & Hnat & _ & _ & Hr) | (Hnat & Hs & Hr)]];
    rewrite Hr; [ | | now repeat split ]; rewrite Hnat; simpl.
  - repeat split; try reflexivity; try discriminate. intros H. now contradiction H.
  - repeat split; try reflexivity; discriminate.
Qed.

(** C7. Transaction building is a function of its arguments, and of these
    fields of the specification only: network, amount, asset and recipient.
    Two specifications that agree on them (the same specification, for
    one) give the same EVM request and, with the same recent blockhash and
    fee payer, the same Solana request, or fail alike. *)
Theorem transaction_building_deterministic
  (spec1 spec2 : X402PaymentSpec)
  (recentBlockhash1 recentBlockhash2 feePayer1 feePayer2 : string) :
  Shape.samePayment spec1 spec2 ->
  recentBlockhash1 = recentBlockhash2 ->
  feePayer1 = feePayer2 ->
  EVM.createEVMTransactionRequest spec1 = EVM.createEVMTransactionRequest spec2
  /\ Solana.createSolanaTransactionRequest spec1 recentBlockhash1 feePayer1
     = Solana.createSolanaTransactionRequest spec2 recentBlockhash2 feePayer2.
Proof.
  intros (Hnet & Hamt & Hasset & Hrcpt) <- <-.
  unfold EVM.createEVMTransactionRequest, Solana.createSolanaTransactionRequest,
    assetIsAbsentOr, assetAddress.
  now rewrite Hnet, Hamt, Hasset, Hrcpt.
Qed.

(** One quote issued for two resources. *)
Lemma transaction_building_deterministic_witness :
  usdcOnBase <> usdcOnBaseOther
  /\ EVM.createEVMTransactionRequest usdcOnBase
     = EVM.createEVMTransactionRequest usdcOnBaseOther
  /\ Solana.createSolanaTransactionRequest nativeOnSolana blockhash payer
     = Solana.createSolanaTransactionRequest nativeOnSolanaOther blockhash payer.
Proof.
  split; [ discriminate | split ].
  - apply (transaction_building_deterministic usdcOnBase usdcOnBaseOther
             blockhash blockhash payer payer);
      [ repeat split | reflexivity | reflexivity ].
  - apply (transaction_building_deterministic nativeOnSolana nativeOnSolanaOther
             blockhash blockhash payer payer);
      [ repeat split | reflexivity | reflexivity ].
Defined.

(** C5, as the claim states it, fails: an asset equal to the zero address
    is no sentinel for the Solana builder, which emits a Token-Program
    instruction for it, with the zero address as the mint. *)
Lemma createSolanaTransactionRequest_zero_address_is_a_mint :
  assetIsAbsentOr EVM.zeroAddress zeroAssetOnSolana = true
  /\ match Solana.createSolanaTransactionRequest zeroAssetOnSolana blockhash payer with
     | Normal r =>
         Shape.isTokenTransfer r payer solPayee EVM.zeroAddress
           [3; 128; 150; 152; 0; 0; 0; 0; 0]
         /\ forall payee payload, ~ Shape.isSystemTransfer r payer payee payload
     | Throw _ => False
     end.
Proof.
  split; [ reflexivity | ].
  vm_compute. split; [ reflexivity | ].
  intros payee payload H. discriminate H.
Qed.

(** C5, amended. Each builder has a sentinel of its own for the native
    asset: the zero address on EVM, the string [native] on Solana.
    - EVM, asset absent or the zero address: a native transfer of
      [price.amount] to [recipient.address].
    - EVM, any other asset, on an amount [BigInt] reads: a call of the
      asset's contract that carries the encoded transfer and no value.
    - Solana, asset absent or [native], on an amount [BigInt] reads: one
      System-Program instruction from the fee payer to the recipient that
      carries the amount modulo 2^64.
    - Solana, any other asset, on such an amount: one Token-Program
      instruction whose destination is the recipient's token account for
      the mint, and no System-Program instruction. *)
Theorem transfer_kind_follows_asset (spec : X402PaymentSpec)
  (recentBlockhash feePayer : string) :
  (assetIsAbsentOr EVM.zeroAddress spec = true ->
   exists r,
     EVM.createEVMTransactionRequest spec = Normal r
     /\ Shape.isNativeTransfer r (address (recipient spec)) (amount (price spec)))
  /\ (forall a n,
        asset (price spec) = Some a -> address a <> EVM.zeroAddress ->
        BigInt (amount (price spec)) = Normal n ->
        exists r,
          EVM.createEVMTransactionRequest spec = Normal r
          /\ Shape.isContractCall r (address a)
               (EVM.functionSelector
                ++ padStart 64 "0" (slice 2 (address (recipient spec)))
                ++ padStart 64 "0" (toString16 n))%string
          /\ forall payee amount_, ~ Shape.isNativeTransfer r payee amount_)
  /\ (forall n,
        assetIsAbsentOr Solana.nativeSentinel spec = true ->
        BigInt (amount (price spec)) = Normal n ->
        exists r payload,
          Solana.createSolanaTransactionRequest spec recentBlockhash feePayer
          = Normal r
          /\ Shape.isSystemTransfer r feePayer (address (recipient spec)) payload
          /\ Layout.le_value (skipn 4 payload) = n mod 2 ^ 64)
  /\ (forall a n,
        asset (price spec) = Some a -> address a <> Solana.nativeSentinel ->
        BigInt (amount (price spec)) = Normal n ->
        exists r payload,
          Solana.createSolanaTransactionRequest spec recentBlockhash feePayer
          = Normal r
          /\ Shape.isTokenTransfer r feePayer (address (recipient spec))
               (address a) payload
          /\ Layout.le_value (skipn 1 payload) = n mod 2 ^ 64
          /\ forall payer_ payee payload', ~ Shape.isSystemTransfer r payer_ payee payload').
Proof.
  assert (Hword : forall n, Layout.le_value (le_bytes 8 (n mod 2 ^ 64)) = n mod 2 ^ 64).
  { intros n. rewrite le_value_le_bytes.
    change (256 ^ Z.of_nat 8) with (2 ^ 64). apply Z.mod_mod. lia. }
  repeat apply conj.
  - intros Hnat. eexists. split.
    + now apply createEVMTransactionRequest_native.
    + repeat split.
  - intros a n Ha Hne Hn. eexists. split.
    + now apply (createEVMTransactionRequest_token spec a n).
    + split; [ repeat split | ].
      intros payee amount_ (_ & Hvalue & _). discriminate Hvalue.
  - intros n Hnat Hn. eexists. eexists. split.
    + now apply (createSolanaTransactionRequest_native spec _ _ n).
    + split; [ reflexivity | ].
      cbn [le_bytes app skipn]. apply Hword.
  - intros a n Ha Hne Hn. eexists. eexists. split.
    + now apply (createSolanaTransactionRequest_token spec _ _ a n).
    + split; [ reflexivity | ].
      split; [ cbn [le_bytes app skipn]; apply Hword | ].
      intros payer_ payee payload' H. discriminate H.
Qed.

(** On Base the quote without an asset is a native transfer; on Solana it is
    a System-Program transfer that carries the 10000000 lamports. *)
Lemma transfer_kind_follows_asset_witness :
  (exists r,
      EVM.createEVMTransactionRequest nativeOnBase = Normal r
      /\ Shape.isNativeTransfer r evmPayee "10000000000000000")
  /\ (exists r payload,
        Solana.createSolanaTransactionRequest nativeOnSolana blockhash payer
        = Normal r
        /\ Shape.isSystemTransfer r payer solPayee payload
        /\ Layout.le_value (skipn 4 payload) = 10000000 mod 2 ^ 64).
Proof.
  split.
  - apply (proj1 (transfer_kind_follows_asset nativeOnBase blockhash payer)).
    reflexivity.
  - apply (proj1 (proj2 (proj2
             (transfer_kind_follows_asset nativeOnSolana blockhash payer)))
             10000000); reflexivity.
Defined.

(** C6, as the claim states it, fails: the amount 2^256 has 65 hexadecimal
    digits, [padStart] leaves them as they are, and the call data is one
    digit longer than selector and two 32-byte words; no amount word
    completes it. *)
Lemma createEVMTransactionRequest_amount_wider_than_word :
  StringToBigInt (amount (price hugeUsdcOnBase)) = Some (2 ^ 256)
  /\ match EVM.createEVMTransactionRequest hugeUsdcOnBase with
     | Normal r =>
         EVM.to r = usdcBase
         /\ option_map String.length (EVM.data r) = Some 139%nat
         /\ forall n, EVM.data r
                      <> Some (Layout.transferCallData
                                 "52908400098527886E0F7030069857D2E4169EE7" n)
     | Throw _ => False
     end.
Proof.
  split; [ vm_compute; reflexivity | ].
  assert (Hn : BigInt (amount (price hugeUsdcOnBase)) = Normal (2 ^ 256))
    by (vm_compute; reflexivity).
  rewrite (createEVMTransactionRequest_token hugeUsdcOnBase
             {| address := usdcBase |} (2 ^ 256) eq_refl ltac:(discriminate) Hn).
  cbn [EVM.to EVM.data address option_map].
  split; [ reflexivity | ]. split; [ vm_compute; reflexivity | ].
  intros n H.
  apply (f_equal (option_map String.length)) in H.
  cbn [option_map] in H.
  rewrite length_transferCallData in H.
  vm_compute in H. discriminate H.
Qed.

(** C6, amended. For a specification with an asset other than the zero
    address, a recipient address that is [0x] and 40 digits, and an amount
    that [BigInt] reads as an integer in [0, 2^256),
    [createEVMTransactionRequest] returns a request to the asset's address
    whose data is the [transfer(address,uint256)] call: the selector
    [0xa9059cbb], the recipient's 20 bytes behind 12 zero bytes, and the
    amount as a 32-byte big-endian integer. An amount written in decimal
    is read as itself ([BigInt_decimal]). *)
Theorem createEVMTransactionRequest_encodes_transfer
  (spec : X402PaymentSpec) (a : Account) (digits : string) (n : Z) :
  asset (price spec) = Some a ->
  address a <> EVM.zeroAddress ->
  address (recipient spec) = ("0x" ++ digits)%string ->
  String.length digits = 40%nat ->
  BigInt (amount (price spec)) = Normal n ->
  0 <= n < 2 ^ 256 ->
  EVM.createEVMTransactionRequest spec
  = Normal {| EVM.to := address a;
              EVM.value := None;
              EVM.data := Some (Layout.transferCallData digits n);
              EVM.gasLimit := None;
              EVM.maxFeePerGas := None;
              EVM.maxPriorityFeePerGas := None;
              EVM.chainId := EVM.getChainId (network spec) |}
  /\ Layout.be_value (Layout.be_bytes 32 n) = n.
Proof.
  intros Ha Hne Hrcpt Hlen Hn Hrange. split.
  - rewrite (createEVMTransactionRequest_token spec a n Ha Hne Hn).
    rewrite Hrcpt. cbn [slice append].
    rewrite (padStart_toString16_uint256 n Hrange).
    unfold padStart. rewrite Hlen. reflexivity.
  - rewrite be_value_be_bytes. change (256 ^ Z.of_nat 32) with (2 ^ 256).
    apply Z.mod_small. exact Hrange.
Qed.

(** 2.5 USDC on Base to the quoted payee. *)
Lemma createEVMTransactionRequest_encodes_transfer_witness :
  EVM.createEVMTransactionRequest usdcOnBase
  = Normal {| EVM.to := usdcBase;
              EVM.value := None;
              EVM.data :=
                Some (Layout.transferCallData
                        "52908400098527886E0F7030069857D2E4169EE7" 2500000);
              EVM.gasLimit := None;
              EVM.maxFeePerGas := None;
              EVM.maxPriorityFeePerGas := None;
              EVM.chainId := Some 8453 |}
  /\ Layout.be_value (Layout.be_bytes 32 2500000) = 2500000.
Proof.
  apply (createEVMTransactionRequest_encodes_transfer usdcOnBase
           {| address := usdcBase |}
           "52908400098527886E0F7030069857D2E4169EE7" 2500000);
    try reflexivity; [ discriminate | lia ].
Defined.

(** C8, as the claim states it, fails: 2^64 lamports do not fit 8 bytes,
    [setBigUint64] stores the amount modulo 2^64, and the instruction
    carries the amount 0. *)
Lemma createSolanaTransactionRequest_amount_wraps :
  StringToBigInt (amount (price overflowOnSolana)) = Some (2 ^ 64)
  /\ match Solana.createSolanaTransactionRequest overflowOnSolana blockhash payer with
     | Normal r =>
         Shape.isSystemTransfer r payer solPayee
           ([2; 0; 0; 0] ++ [0; 0; 0; 0; 0; 0; 0; 0])
         /\ ~ Layout.encodesLE 8 (2 ^ 64) [0; 0; 0; 0; 0; 0; 0; 0]
     | Throw _ => False
     end.
Proof.
  split; [ reflexivity | ].
  vm_compute. split; [ reflexivity | ].
  intros (_ & _ & H). discriminate H.
Qed.

(** C8, amended. For a specification whose amount [BigInt] reads as the
    integer [n]:
    - asset absent or [native]: exactly one instruction, of the System
      Program, whose data is 12 bytes: 2 as a 4-byte little-endian integer,
      then [n] modulo 2^64 as an 8-byte little-endian unsigned integer;
    - any other asset: one Token-Program instruction whose data is the
      byte 3, then [n] modulo 2^64 in the same 8-byte layout.
    The amount is carried as it is when 0 <= n < 2^64. An amount written
    in decimal is read as itself ([BigInt_decimal]). *)
Theorem createSolanaTransactionRequest_data_layout (spec : X402PaymentSpec)
  (recentBlockhash feePayer : string) (n : Z) :
  BigInt (amount (price spec)) = Normal n ->
  (assetIsAbsentOr Solana.nativeSentinel spec = true ->
   exists r discriminator word,
     Solana.createSolanaTransactionRequest spec recentBlockhash feePayer = Normal r
     /\ Shape.isSystemTransfer r feePayer (address (recipient spec))
          (discriminator ++ word)
     /\ List.length (discriminator ++ word) = 12%nat
     /\ Layout.encodesLE 4 2 discriminator
     /\ Layout.encodesLE 8 (n mod 2 ^ 64) word
     /\ (0 <= n < 2 ^ 64 -> Layout.encodesLE 8 n word))
  /\ (forall a,
        asset (price spec) = Some a -> address a <> Solana.nativeSentinel ->
        exists r word,
          Solana.createSolanaTransactionRequest spec recentBlockhash feePayer
          = Normal r
          /\ Shape.isTokenTransfer r feePayer (address (recipient spec))
               (address a) (3 :: word)
          /\ Layout.encodesLE 8 (n mod 2 ^ 64) word
          /\ (0 <= n < 2 ^ 64 -> Layout.encodesLE 8 n word)).
Proof.
  intros Hn.
  assert (Hword : Layout.encodesLE 8 (n mod 2 ^ 64) (le_bytes 8 (n mod 2 ^ 64))).
  { pose proof (encodesLE_le_bytes 8 (n mod 2 ^ 64)) as H.
    change (256 ^ Z.of_nat 8) with (2 ^ 64) in H.
    now rewrite Z.mod_mod in H by lia. }
  assert (Hfits : 0 <= n < 2 ^ 64 ->
                  Layout.encodesLE 8 n (le_bytes 8 (n mod 2 ^ 64))).
  { intros Hrange. now rewrite <- (Z.mod_small n (2 ^ 64) Hrange) at 1. }
  split.
  - intros Hnat.
    exists
      {| Solana.recentBlockhash := recentBlockhash;
         Solana.feePayer := feePayer;
         Solana.instructions :=
           [ {| Solana.programId := Solana.systemProgram;
                Solana.keys :=
                  [ {| Solana.pubkey := feePayer;
                       Solana.isSigner := true; Solana.isWritable := true |};
                    {| Solana.pubkey := address (recipient spec);
                       Solana.isSigner := false; Solana.isWritable := true |} ];
                Solana.data := le_bytes 4 2 ++ le_bytes 8 (n mod 2 ^ 64) |} ];
         Solana.computeBudget := None |},
      (le_bytes 4 2), (le_bytes 8 (n mod 2 ^ 64)).
    split; [ now apply createSolanaTransactionRequest_native | ].
    split; [ reflexivity | ].
    split; [ now rewrite length_app, !length_le_bytes | ].
    split; [ exact (encodesLE_le_bytes 4 2) | ].
    split; assumption.
  - intros a Ha Hne.
    eexists. exists (le_bytes 8 (n mod 2 ^ 64)).
    split; [ now apply (createSolanaTransactionRequest_token spec _ _ a n) | ].
    split; [ reflexivity | ].
    split; assumption.
Qed.

(** 0.01 SOL: the discriminator 2, then 10000000 = 0x989680 from its low
    byte up. *)
Lemma createSolanaTransactionRequest_data_layout_witness :
  exists r discriminator word,
    Solana.createSolanaTransactionRequest nativeOnSolana blockhash payer = Normal r
    /\ Shape.isSystemTransfer r payer solPayee (discriminator ++ word)
    /\ List.length (discriminator ++ word) = 12%nat
    /\ Layout.encodesLE 4 2 discriminator
    /\ Layout.encodesLE 8 (10000000 mod 2 ^ 64) word
    /\ (0 <= 10000000 < 2 ^ 64 -> Layout.encodesLE 8 10000000 word).
Proof.
  apply (proj1 (createSolanaTransactionRequest_data_layout nativeOnSolana
                  blockhash payer 10000000 eq_refl)).
  reflexivity.
Defined.

End BuilderClaims.

(** * Further properties of the adapters *)

(** ** More on strings and numerals *)

Section MoreStrings.

Local Open Scope string_scope.

Lemma slice_append (s t : string) : slice (String.length s) (s ++ t) = t.
Proof. induction s as [ | c s IH ]; simpl; [ now destruct t | exact IH ]. Qed.

Lemma append_inv_head (s t u : string) : s ++ t = s ++ u -> t = u.
Proof.
  induction s as [ | c s IH ]; simpl; intros H; [ exact H | ].
  apply IH. now injection H.
Qed.

Lemma append_inv_tail (u : string) : forall s t : string,
  s ++ u = t ++ u -> s = t.
Proof.
  induction s as [ | c s IH ]; intros t H.
  - destruct t as [ | c' t ]; [ reflexivity | ].
    apply (f_equal String.length) in H.
    simpl in H. rewrite length_append in H. lia.
  - destruct t as [ | c' t ].
    + apply (f_equal String.length) in H.
      simpl in H. rewrite length_append in H. lia.
    + simpl in H. injection H as Hc Hrest.
      f_equal; [ exact Hc | now apply IH ].
Qed.

Lemma occurs_append (c : ascii) (s t : string) :
  Text.occurs c (s ++ t) = Text.occurs c s || Text.occurs c t.
Proof.
  induction s as [ | c' s IH ]; simpl; [ reflexivity | ].
  now rewrite IH, orb_assoc.
Qed.

Lemma occurs_fill (c d : ascii) (k : nat) :
  Ascii.eqb c d = false -> Text.occurs c (fill k d) = false.
Proof.
  intros Hcd. induction k as [ | k IH ]; simpl; [ reflexivity | ].
  now rewrite Hcd, IH.
Qed.

Lemma list_ascii_of_string_append (s t : string) :
  list_ascii_of_string (s ++ t)
  = (list_ascii_of_string s ++ list_ascii_of_string t)%list.
Proof. induction s as [ | c s IH ]; simpl; [ reflexivity | now rewrite IH ]. Qed.

Lemma list_ascii_of_string_fill (k : nat) (c : ascii) :
  list_ascii_of_string (fill k c) = repeat c k.
Proof. induction k as [ | k IH ]; simpl; [ reflexivity | now rewrite IH ]. Qed.

(** Splitting at the first separator: two texts with a separator-free
    head each agree on head and rest. *)
Lemma split_at_first (c : ascii) : forall s s' t t' : string,
  Text.occurs c s = false -> Text.occurs c s' = false ->
  s ++ String c t = s' ++ String c t' -> s = s' /\ t = t'.
Proof.
  induction s as [ | a s IH ]; intros s' t t' Hs Hs' H.
  - destruct s' as [ | a' s' ]; simpl in H.
    + split; [ reflexivity | now injection H ].
    + injection H as Ha _. subst a'. simpl in Hs'.
      now rewrite Ascii.eqb_refl in Hs'.
  - destruct s' as [ | a' s' ]; simpl in H.
    + injection H as Ha _. subst a. simpl in Hs.
      now rewrite Ascii.eqb_refl in Hs.
    + injection H as Ha Hrest. subst a'.
      simpl in Hs, Hs'. apply orb_false_iff in Hs, Hs'.
      destruct (IH s' t t' (proj2 Hs) (proj2 Hs') Hrest) as [-> ->].
      now split.
Qed.

End MoreStrings.

Section MoreNumerals.

Local Open Scope Z_scope.

Ltac each_nibble d H :=
  assert (d = 0 \/ d = 1 \/ d = 2 \/ d = 3 \/ d = 4 \/ d = 5 \/ d = 6
          \/ d = 7 \/ d = 8 \/ d = 9 \/ d = 10 \/ d = 11 \/ d = 12
          \/ d = 13 \/ d = 14 \/ d = 15) as H by lia;
  repeat (destruct H as [H | H]); subst d.

Lemma digitValue_hexChar (d : Z) :
  0 <= d < 16 -> digitValue 16 (hexChar d) = Some d.
Proof. intros Hd. each_nibble d H; reflexivity. Qed.

Lemma hexChar_not_space (d : Z) :
  0 <= d < 16 -> isStrWhiteSpace (hexChar d) = false.
Proof. intros Hd. each_nibble d H; reflexivity. Qed.

Lemma hexChar_not_minus (d : Z) :
  0 <= d < 16 -> Ascii.eqb "-" (hexChar d) = false.
Proof. intros Hd. each_nibble d H; reflexivity. Qed.

(** White space is trimmed off a text without white space on no side. *)
Lemma trim_no_space (cs : list ascii) :
  Forall (fun c => isStrWhiteSpace c = false) cs -> trim cs = cs.
Proof.
  intros Hcs. unfold trim.
  assert (Hstart : forall l, Forall (fun c => isStrWhiteSpace c = false) l ->
                             trimStart l = l).
  { intros [ | c l ] Hl; [ reflexivity | ].
    simpl. now rewrite (Forall_inv Hl). }
  rewrite (Hstart cs Hcs), (Hstart (rev cs)).
  - apply rev_involutive.
  - now apply Forall_rev.
Qed.

(** A text of white space alone is trimmed to nothing. *)
Lemma trim_blank (cs : list ascii) :
  forallb isStrWhiteSpace cs = true -> trim cs = [].
Proof.
  intros Hcs. unfold trim.
  assert (Hstart : trimStart cs = []).
  { induction cs as [ | c cs IH ]; [ reflexivity | ].
    simpl in Hcs. apply andb_true_iff in Hcs. destruct Hcs as [Hc Hcs].
    simpl. rewrite Hc. now apply IH. }
  now rewrite Hstart.
Qed.

Lemma hexDigits_snoc (fuel : nat) (n : Z) :
  0 < n ->
  hexDigits (S fuel) n EmptyString
  = (hexDigits fuel (n / 16) EmptyString
     ++ String (hexChar (n mod 16)) EmptyString)%string.
Proof.
  intros Hn. cbn [hexDigits].
  destruct (Z.leb_spec n 0) as [Hz | _]; [ lia | ].
  apply hexDigits_acc.
Qed.

Lemma hexDigits_zero (fuel : nat) (n : Z) :
  n <= 0 -> hexDigits fuel n EmptyString = EmptyString.
Proof.
  intros Hn. destruct fuel as [ | fuel ]; [ reflexivity | ].
  cbn [hexDigits]. destruct (Z.leb_spec n 0) as [_ | Hpos]; [ reflexivity | lia ].
Qed.

(** The digits [toString(16)] writes are hexadecimal digits. *)
Lemma hexDigits_digits (fuel : nat) : forall n : Z,
  0 <= n ->
  Forall (fun c => exists d, 0 <= d < 16 /\ c = hexChar d)
    (list_ascii_of_string (hexDigits fuel n EmptyString)).
Proof.
  induction fuel as [ | fuel IH ]; intros n Hn; [ constructor | ].
  destruct (Z.eq_dec n 0) as [-> | Hnz].
  - rewrite hexDigits_zero by lia. constructor.
  - rewrite hexDigits_snoc by lia.
    rewrite list_ascii_of_string_append. apply Forall_app. split.
    + apply IH. apply Z.div_pos; lia.
    + constructor; [ | constructor ].
      exists (n mod 16). split; [ apply Z.mod_pos_bound; lia | reflexivity ].
Qed.

(** Read back in radix 16, the digits give the integer. *)
Lemma parseDigits_hexDigits (fuel : nat) : forall n : Z,
  0 <= n < 16 ^ Z.of_nat fuel ->
  parseDigits 16 (list_ascii_of_string (hexDigits fuel n EmptyString)) 0 = Some n.
Proof.
  induction fuel as [ | fuel IH ]; intros n Hn.
  - change (16 ^ Z.of_nat 0) with 1 in Hn. simpl. f_equal. lia.
  - destruct (Z.eq_dec n 0) as [-> | Hnz].
    + rewrite hexDigits_zero by lia. reflexivity.
    + rewrite Nat2Z.inj_succ, Z.pow_succ_r in Hn by lia.
      rewrite hexDigits_snoc by lia.
      rewrite list_ascii_of_string_append, parseDigits_app, IH.
      * cbn [list_ascii_of_string parseDigits].
        rewrite digitValue_hexChar by (apply Z.mod_pos_bound; lia).
        f_equal. pose proof (Z.div_mod n 16). lia.
      * split; [ apply Z.div_pos; lia | apply Z.div_lt_upper_bound; lia ].
Qed.

(** Leading zeros do not change what is read. *)
Lemma parseDigits_zeros (radix : Z) (k : nat) (cs : list ascii) :
  1 < radix ->
  parseDigits radix (repeat "0"%char k ++ cs) 0 = parseDigits radix cs 0.
Proof.
  intros Hr. induction k as [ | k IH ]; [ reflexivity | ].
  cbn [repeat app parseDigits].
  replace (digitValue radix "0") with (Some 0).
  - exact IH.
  - unfold digitValue. change (code "0") with 48. simpl.
    destruct (Z.ltb_spec 0 radix); [ reflexivity | lia ].
Qed.

(** An integer written with [len] hexadecimal digits is below 16^len. *)
Lemma hexDigits_length_upper (fuel : nat) : forall n : Z,
  0 <= n < 16 ^ Z.of_nat fuel ->
  n < 16 ^ Z.of_nat (String.length (hexDigits fuel n EmptyString)).
Proof.
  induction fuel as [ | fuel IH ]; intros n Hn.
  - change (16 ^ Z.of_nat 0) with 1 in Hn. simpl. lia.
  - destruct (Z.eq_dec n 0) as [-> | Hnz].
    + rewrite hexDigits_zero by lia. simpl. lia.
    + rewrite Nat2Z.inj_succ, Z.pow_succ_r in Hn by lia.
      rewrite hexDigits_snoc by lia.
      rewrite length_append. cbn [String.length].
      rewrite Nat2Z.inj_add. change (Z.of_nat 1) with 1.
      rewrite Z.add_1_r, Z.pow_succ_r by lia.
      assert (Hq : 0 <= n / 16 < 16 ^ Z.of_nat fuel).
      { split; [ apply Z.div_pos; lia | apply Z.div_lt_upper_bound; lia ]. }
      pose proof (IH (n / 16) Hq) as Hup.
      pose proof (Z.div_mod n 16). pose proof (Z.mod_pos_bound n 16). lia.
Qed.

(** [toString(16)] of a non-negative integer has at most [k] digits
    exactly when the integer is below 16^k. *)
Lemma length_toString16 (k : nat) (n : Z) :
  (1 <= k)%nat -> 0 <= n ->
  ((String.length (toString16 n) <= k)%nat <-> n < 16 ^ Z.of_nat k).
Proof.
  intros Hk Hn. unfold toString16.
  destruct (Z.eqb_spec n 0) as [-> | Hnz].
  - simpl String.length. split; intros _; [ | lia ].
    apply Z.pow_pos_nonneg; lia.
  - destruct (Z.ltb_spec n 0) as [Hneg | _]; [ lia | ].
    assert (Hpos : 0 < n) by lia.
    pose proof (digitBound_enough n Hpos) as Hfuel.
    split.
    + intros Hlen.
      pose proof (hexDigits_length_upper (digitBound n) n (conj Hn Hfuel)) as Hup.
      apply Z.lt_le_trans with (1 := Hup).
      apply Z.pow_le_mono_r; lia.
    + intros Hlt.
      destruct (hexDigits_hexWord (digitBound n) k n) as [Hlen _]; [ lia | lia | ].
      exact Hlen.
Qed.

(** The amount word of the call data, read back as a hexadecimal literal,
    is the amount, whatever its size. *)
Lemma StringToBigInt_amount_word (n : Z) :
  0 <= n ->
  StringToBigInt ("0x" ++ padStart 64 "0" (toString16 n)) = Some n.
Proof.
  intros Hn.
  assert (Hdigits : exists cs,
             list_ascii_of_string (toString16 n) = cs /\ cs <> []
             /\ Forall (fun c => exists d, 0 <= d < 16 /\ c = hexChar d) cs
             /\ parseDigits 16 cs 0 = Some n).
  { unfold toString16. destruct (Z.eqb_spec n 0) as [-> | Hnz].
    - exists ["0"%char]. repeat split; try discriminate.
      constructor; [ | constructor ]. exists 0. split; [ lia | reflexivity ].
    - destruct (Z.ltb_spec n 0) as [Hneg | _]; [ lia | ].
      assert (Hpos : 0 < n) by lia.
      pose proof (digitBound_enough n Hpos) as Hfuel.
      eexists. split; [ reflexivity | ]. split; [ | split ].
      + unfold digitBound. rewrite hexDigits_snoc by lia.
        rewrite list_ascii_of_string_append. intros Hnil.
        apply app_eq_nil in Hnil. destruct Hnil as [_ Hnil]. discriminate Hnil.
      + apply hexDigits_digits. lia.
      + apply parseDigits_hexDigits. lia. }
  destruct Hdigits as (cs & Hcs & Hne & Hhex & Hparse).
  unfold StringToBigInt, padStart.
  cbn [append list_ascii_of_string].
  rewrite list_ascii_of_string_append, list_ascii_of_string_fill, Hcs.
  set (k := (64 - String.length (toString16 n))%nat).
  rewrite trim_no_space.
  - cbv beta iota.
    assert (Hbody : repeat "0"%char k ++ cs <> []).
    { intros Hnil. apply app_eq_nil in Hnil. now destruct Hnil. }
    unfold parseNumeral.
    destruct (repeat "0"%char k ++ cs) as [ | c l ] eqn:E; [ now contradiction Hbody | ].
    rewrite <- E, parseDigits_zeros by lia. exact Hparse.
  - constructor; [ reflexivity | ]. constructor; [ reflexivity | ].
    apply Forall_app. split.
    + apply Forall_forall. intros c Hc. apply repeat_spec in Hc. now subst c.
    + eapply Forall_impl; [ | exact Hhex ].
      intros c (d & Hd & ->). now apply hexChar_not_space.
Qed.

End MoreNumerals.

(** ** The ERC-20 call data beyond the [uint256] range *)

Section TransferData.

Import X402 Examples.

Lemma length_slice (k : nat) : forall s : string,
  String.length (slice k s) = (String.length s - k)%nat.
Proof.
  induction k as [ | k IH ]; intros s; simpl.
  - lia.
  - destruct s as [ | c s ]; simpl; [ reflexivity | apply IH ].
Qed.

Lemma be_bytes_isByte (k : nat) : forall n : Z,
  Forall Layout.isByte (Layout.be_bytes k n).
Proof.
  induction k as [ | k IH ]; intros n; simpl; [ constructor | ].
  apply Forall_app. split; [ apply IH | ].
  constructor; [ | constructor ].
  unfold Layout.isByte. apply Z.mod_pos_bound. lia.
Qed.

Lemma occurs_minus_hexOfBytes (bs : list Z) :
  Forall Layout.isByte bs -> Text.occurs "-" (Layout.hexOfBytes bs) = false.
Proof.
  induction 1 as [ | b bs Hb _ IH ]; [ reflexivity | ].
  unfold Layout.isByte in Hb.
  cbn [Layout.hexOfBytes Layout.hexOfByte append Text.occurs].
  rewrite !hexChar_not_minus, IH; [ reflexivity | | ].
  - apply Z.mod_pos_bound. lia.
  - split; [ apply Z.div_pos; lia | apply Z.div_lt_upper_bound; lia ].
Qed.

(** X1. Call data is never shorter than selector and two 32-byte words
    (138 characters with the [0x] mark); for a recipient of at most 66
    characters and a non-negative amount it has that length exactly when
    the amount is below 2^256. *)
Theorem encodeERC20Transfer_length (to_ amount_ : string) (n : Z) :
  BigInt amount_ = Normal n ->
  0 <= n ->
  (String.length to_ <= 66)%nat ->
  exists callData,
    EVM.encodeERC20Transfer to_ amount_ = Normal callData
    /\ (138 <= String.length callData)%nat
    /\ (String.length callData = 138%nat <-> n < 2 ^ 256).
Proof.
  intros Hn Hpos Hto. eexists. split.
  - apply (encodeERC20Transfer_Normal to_ amount_ n Hn).
  - rewrite !length_append, !length_padStart, length_slice.
    change (String.length EVM.functionSelector) with 10%nat.
    pose proof (length_toString16 64 n ltac:(lia) Hpos) as Hlen.
    change (16 ^ Z.of_nat 64) with (2 ^ 256) in Hlen.
    split; [ lia | ].
    rewrite <- Hlen. lia.
Qed.

Lemma encodeERC20Transfer_length_witness :
  exists callData,
    EVM.encodeERC20Transfer evmPayee "2500000" = Normal callData
    /\ (138 <= String.length callData)%nat
    /\ (String.length callData = 138%nat <-> 2500000 < 2 ^ 256).
Proof.
  apply (encodeERC20Transfer_length evmPayee "2500000" 2500000);
    [ reflexivity | lia | simpl; lia ].
Defined.

(** X2. A negative amount is not written in two's complement: its minus
    sign goes into the call data, which is then no [transfer] call data
    for any hexadecimal recipient and any amount. *)
Theorem encodeERC20Transfer_negative_amount (to_ amount_ : string) (n : Z) :
  BigInt amount_ = Normal n ->
  n < 0 ->
  exists callData,
    EVM.encodeERC20Transfer to_ amount_ = Normal callData
    /\ Text.occurs "-" callData = true
    /\ forall digits m,
         Text.occurs "-" digits = false ->
         callData <> Layout.transferCallData digits m.
Proof.
  intros Hn Hneg. eexists. split; [ apply (encodeERC20Transfer_Normal _ _ n Hn) | ].
  assert (Hminus : Text.occurs "-"
                     (EVM.functionSelector
                      ++ padStart 64 "0" (slice 2 to_)
                      ++ padStart 64 "0" (toString16 n)) = true).
  { rewrite !occurs_append. unfold toString16.
    destruct (Z.eqb_spec n 0) as [-> | _]; [ lia | ].
    destruct (Z.ltb_spec n 0) as [_ | Hge]; [ | lia ].
    unfold padStart at 2. rewrite occurs_append.
    cbn [Text.occurs]. rewrite Ascii.eqb_refl.
    now rewrite !orb_true_r. }
  split; [ exact Hminus | ].
  intros digits m Hdigits Heq. rewrite Heq in Hminus.
  unfold Layout.transferCallData, Layout.addressWord, Layout.uint256Word in Hminus.
  rewrite !occurs_append, Hdigits in Hminus.
  rewrite (occurs_minus_hexOfBytes (Layout.be_bytes 32 m)) in Hminus
    by apply be_bytes_isByte.
  vm_compute in Hminus. discriminate Hminus.
Qed.

Lemma encodeERC20Transfer_negative_amount_witness :
  exists callData,
    EVM.encodeERC20Transfer evmPayee "-255" = Normal callData
    /\ Text.occurs "-" callData = true
    /\ forall digits m,
         Text.occurs "-" digits = false ->
         callData <> Layout.transferCallData digits m.
Proof.
  apply (encodeERC20Transfer_negative_amount evmPayee "-255" (-255));
    [ reflexivity | lia ].
Defined.

(** X3. For a recipient of at most 66 characters and a non-negative
    amount of any size, the text behind the selector and the address word,
    read as a hexadecimal literal, is the amount: the call data never
    loses a digit of it. *)
Theorem encodeERC20Transfer_amount_reads_back (to_ amount_ : string) (n : Z) :
  BigInt amount_ = Normal n ->
  0 <= n ->
  (String.length to_ <= 66)%nat ->
  exists callData,
    EVM.encodeERC20Transfer to_ amount_ = Normal callData
    /\ BigInt ("0x" ++ slice 74 callData) = Normal n.
Proof.
  intros Hn Hpos Hto. eexists. split.
  - apply (encodeERC20Transfer_Normal to_ amount_ n Hn).
  - rewrite <- append_assoc.
    replace 74%nat
      with (String.length (EVM.functionSelector
                           ++ padStart 64 "0" (slice 2 to_))%string).
    + rewrite slice_append. unfold BigInt.
      now rewrite (StringToBigInt_amount_word n Hpos).
    + rewrite length_append, length_padStart, length_slice.
      change (String.length EVM.functionSelector) with 10%nat. lia.
Qed.

Lemma encodeERC20Transfer_amount_reads_back_witness :
  exists callData,
    EVM.encodeERC20Transfer evmPayee
      "115792089237316195423570985008687907853269984665640564039457584007913129639936"
    = Normal callData
    /\ BigInt ("0x" ++ slice 74 callData) = Normal (2 ^ 256).
Proof.
  apply (encodeERC20Transfer_amount_reads_back evmPayee _ (2 ^ 256));
    [ vm_compute; reflexivity | lia | simpl; lia ].
Defined.

End TransferData.

(** ** The Solana instruction data at the edges of the amount *)

Section InstructionData.

Import X402 Examples.

Lemma decimal_digits (n : Z) :
  0 <= n ->
  exists cs,
    list_ascii_of_string (Layout.decimal n) = cs /\ cs <> []
    /\ Forall Layout.isDecimalDigit cs
    /\ parseDigits 10 cs 0 = Some n.
Proof.
  intros Hn. unfold Layout.decimal.
  destruct (Z.leb_spec n 0) as [Hz | Hpos].
  - assert (n = 0) by lia. subst n.
    exists ["0"%char]. repeat split; try discriminate.
    constructor; [ | constructor ]. exists 0. split; [ lia | reflexivity ].
  - eexists. split; [ apply list_ascii_of_string_of_list_ascii | ].
    split; [ now apply decimalDigits_nonempty | ].
    split; [ apply decimalDigits_digits; lia | ].
    apply parseDigits_decimalDigits.
    split; [ lia | now apply digitBound_decimal ].
Qed.

(** [BigInt] reads a minus sign and the decimal writing of [n] as [-n]. *)
Lemma BigInt_negative_decimal (n : Z) :
  0 <= n -> BigInt ("-" ++ Layout.decimal n) = Normal (- n).
Proof.
  intros Hn.
  destruct (decimal_digits n Hn) as (cs & Hcs & Hne & Hdigits & Hparse).
  unfold BigInt, StringToBigInt.
  cbn [append list_ascii_of_string]. rewrite Hcs.
  rewrite trim_no_space.
  - cbv beta iota. unfold parseNumeral.
    destruct cs as [ | c cs ]; [ now contradiction Hne | ].
    now rewrite Hparse.
  - constructor; [ reflexivity | ].
    eapply Forall_impl; [ | exact Hdigits ].
    intros c Hc. now apply isDecimalDigit_not_space.
Qed.

Lemma Normal_inj {A : Type} (a b : A) : Normal a = Normal b -> a = b.
Proof. congruence. Qed.

Lemma le_bytes_word_eq (x y : Z) :
  le_bytes 8 (x mod 2 ^ 64) = le_bytes 8 (y mod 2 ^ 64) <->
  x mod 2 ^ 64 = y mod 2 ^ 64.
Proof.
  split; [ | now intros -> ].
  intros H. apply (f_equal Layout.le_value) in H.
  rewrite !le_value_le_bytes in H.
  change (256 ^ Z.of_nat 8) with (2 ^ 64) in H.
  now rewrite !Z.mod_mod in H by lia.
Qed.

(** X4. Two readable amounts give the same instruction data exactly when
    they are congruent modulo 2^64, in the System-Program layout and in
    the Token-Program layout alike: below 2^64 the data tells the amounts
    apart, beyond it does not. *)
Theorem solana_amounts_collide_modulo_word (amount1 amount2 : string) (n1 n2 : Z) :
  BigInt amount1 = Normal n1 ->
  BigInt amount2 = Normal n2 ->
  (Solana.encodeSOLTransfer amount1 = Solana.encodeSOLTransfer amount2
   <-> n1 mod 2 ^ 64 = n2 mod 2 ^ 64)
  /\ (Solana.encodeSPLTokenTransfer amount1 = Solana.encodeSPLTokenTransfer amount2
      <-> n1 mod 2 ^ 64 = n2 mod 2 ^ 64).
Proof.
  intros H1 H2.
  rewrite (encodeSOLTransfer_Normal _ _ H1), (encodeSOLTransfer_Normal _ _ H2).
  rewrite (encodeSPLTokenTransfer_Normal _ _ H1), (encodeSPLTokenTransfer_Normal _ _ H2).
  split; (split; [ intros H | intros H; now rewrite H ]).
  - apply Normal_inj, app_inv_head in H. now apply le_bytes_word_eq.
  - apply Normal_inj, app_inv_head in H. now apply le_bytes_word_eq.
Qed.

(** One lamport and 2^64 + 1 lamports. *)
Lemma solana_amounts_collide_modulo_word_witness :
  Solana.encodeSOLTransfer "1" = Solana.encodeSOLTransfer "18446744073709551617"
  /\ Solana.encodeSPLTokenTransfer "1" <> Solana.encodeSPLTokenTransfer "2".
Proof.
  split.
  - apply (proj1 (solana_amounts_collide_modulo_word
                    "1" "18446744073709551617" 1 (2 ^ 64 + 1) eq_refl eq_refl)).
    reflexivity.
  - intros H.
    apply (proj2 (solana_amounts_collide_modulo_word "1" "2" 1 2 eq_refl eq_refl))
      in H.
    discriminate H.
Defined.

(** X5. A negative amount is not rejected: [-n] written in decimal, for
    0 < n <= 2^64, is encoded as the unsigned amount 2^64 - n, so the
    amount [-1] becomes the largest amount there is. *)
Theorem encodeSOLTransfer_negative_amount (n : Z) :
  0 < n <= 2 ^ 64 ->
  exists word,
    Solana.encodeSOLTransfer ("-" ++ Layout.decimal n)
    = Normal (le_bytes 4 2 ++ word)
    /\ Solana.encodeSPLTokenTransfer ("-" ++ Layout.decimal n)
       = Normal (le_bytes 1 3 ++ word)
    /\ Layout.encodesLE 8 (2 ^ 64 - n) word.
Proof.
  intros Hn.
  assert (Hread : BigInt ("-" ++ Layout.decimal n) = Normal (- n))
    by (apply BigInt_negative_decimal; lia).
  exists (le_bytes 8 (- n mod 2 ^ 64)).
  split; [ now apply encodeSOLTransfer_Normal | ].
  split; [ now apply encodeSPLTokenTransfer_Normal | ].
  assert (Hwrap : - n mod 2 ^ 64 = 2 ^ 64 - n).
  { destruct (Z.eq_dec n (2 ^ 64)) as [-> | Hlt]; [ reflexivity | ].
    symmetry. apply Z.mod_unique with (q := -1); lia. }
  pose proof (encodesLE_le_bytes 8 (- n mod 2 ^ 64)) as H.
  change (256 ^ Z.of_nat 8) with (2 ^ 64) in H.
  rewrite Z.mod_mod in H by lia. now rewrite Hwrap in H at 1.
Qed.

Lemma encodeSOLTransfer_negative_amount_witness :
  exists word,
    Solana.encodeSOLTransfer ("-" ++ Layout.decimal 1)
    = Normal (le_bytes 4 2 ++ word)
    /\ Solana.encodeSPLTokenTransfer ("-" ++ Layout.decimal 1)
       = Normal (le_bytes 1 3 ++ word)
    /\ Layout.encodesLE 8 (2 ^ 64 - 1) word.
Proof.
  apply (encodeSOLTransfer_negative_amount 1). lia.
Defined.

(** X6. An amount that is empty or white space alone is no error: [BigInt]
    reads it as 0, and every encoder writes a transfer of nothing. *)
Theorem blank_amount_encodes_zero (amount_ : string) :
  Text.isBlank amount_ = true ->
  Solana.encodeSOLTransfer amount_ = Normal [2; 0; 0; 0; 0; 0; 0; 0; 0; 0; 0; 0]
  /\ Solana.encodeSPLTokenTransfer amount_ = Normal [3; 0; 0; 0; 0; 0; 0; 0; 0]
  /\ forall to_,
       EVM.encodeERC20Transfer to_ amount_
       = Normal (EVM.functionSelector ++ padStart 64 "0" (slice 2 to_)
                 ++ fill 64 "0")%string.
Proof.
  intros Hblank.
  assert (Hzero : BigInt amount_ = Normal 0).
  { unfold BigInt, StringToBigInt. now rewrite (trim_blank _ Hblank). }
  split; [ now rewrite (encodeSOLTransfer_Normal _ _ Hzero) | ].
  split; [ now rewrite (encodeSPLTokenTransfer_Normal _ _ Hzero) | ].
  intros to_. now rewrite (encodeERC20Transfer_Normal _ _ _ Hzero).
Qed.

(** The empty amount. *)
Lemma blank_amount_encodes_zero_witness :
  Solana.encodeSOLTransfer "" = Normal [2; 0; 0; 0; 0; 0; 0; 0; 0; 0; 0; 0].
Proof.
  apply (proj1 (blank_amount_encodes_zero "" eq_refl)).
Defined.

End InstructionData.

(** ** The Solana builder as a whole *)

Section SolanaRequests.

Import X402 Examples MoreExamples.

(** Every outcome of the Solana builder. *)
Lemma createSolanaTransactionRequest_cases (spec : X402PaymentSpec)
  (recentBlockhash feePayer : string) :
  (exists n,
      assetIsAbsentOr Solana.nativeSentinel spec = true
      /\ StringToBigInt (amount (price spec)) = Some n
      /\ Solana.createSolanaTransactionRequest spec recentBlockhash feePayer
         = Normal
             {| Solana.recentBlockhash := recentBlockhash;
                Solana.feePayer := feePayer;
                Solana.instructions :=
                  [ {| Solana.programId := Solana.systemProgram;
                       Solana.keys :=
                         [ {| Solana.pubkey := feePayer;
                              Solana.isSigner := true; Solana.isWritable := true |};
                           {| Solana.pubkey := address (recipient spec);
                              Solana.isSigner := false; Solana.isWritable := true |} ];
                       Solana.data := le_bytes 4 2 ++ le_bytes 8 (n mod 2 ^ 64) |} ];
                Solana.computeBudget := None |})
  \/ (exists a n,
        asset (price spec) = Some a
        /\ address a <> Solana.nativeSentinel
        /\ StringToBigInt (amount (price spec)) = Some n
        /\ Solana.createSolanaTransactionRequest spec recentBlockhash feePayer
           = Normal
               {| Solana.recentBlockhash := recentBlockhash;
                  Solana.feePayer := feePayer;
                  Solana.instructions :=
                    [ {| Solana.programId := Solana.tokenProgram;
                         Solana.keys :=
                           [ {| Solana.pubkey :=
                                  Solana.getAssociatedTokenAddress feePayer (address a);
                                Solana.isSigner := false; Solana.isWritable := true |};
                             {| Solana.pubkey := address a;
                                Solana.isSigner := false; Solana.isWritable := false |};
                             {| Solana.pubkey :=
                                  Solana.getAssociatedTokenAddress
                                    (address (recipient spec)) (address a);
                                Solana.isSigner := false; Solana.isWritable := true |};
                             {| Solana.pubkey := feePayer;
                                Solana.isSigner := true; Solana.isWritable := false |} ];
                         Solana.data := le_bytes 1 3 ++ le_bytes 8 (n mod 2 ^ 64) |} ];
                  Solana.computeBudget := None |})
  \/ (StringToBigInt (amount (price spec)) = None
      /\ Solana.createSolanaTransactionRequest spec recentBlockhash feePayer
         = Throw SyntaxError).
Proof.
  destruct (BigInt_cases (amount (price spec))) as [(n & Hs & Hn) | (Hs & Hn)].
  - destruct (assetIsAbsentOr Solana.nativeSentinel spec) eqn:Hnat.
    + left. exists n. repeat split; try assumption.
      now apply createSolanaTransactionRequest_native.
    + right; left.
      destruct (proj1 (assetIsAbsentOr_false _ _) Hnat) as (a & Ha & Hne).
      exists a, n. repeat split; try assumption.
      now apply createSolanaTransactionRequest_token.
  - right; right. split; [ exact Hs | ].
    unfold Solana.createSolanaTransactionRequest, Solana.encodeSOLTransfer,
      Solana.encodeSPLTokenTransfer.
    rewrite Hn.
    destruct (assetIsAbsentOr Solana.nativeSentinel spec) eqn:Hnat; [ reflexivity | ].
    destruct (proj1 (assetIsAbsentOr_false _ _) Hnat) as (a & Ha & Hne).
    unfold assetAddress. now rewrite Ha.
Qed.

(** X7. The builders read the amount as an integer, the checks compare it
    as text. Two specifications that differ in the spelling of one amount
    get the same Solana request and the same ERC-20 request; a proof that
    quotes one spelling is rejected against the other. *)
Theorem amount_spelling_splits_building_from_verification
  (spec1 spec2 : X402PaymentSpec) (recentBlockhash feePayer : string) (n : Z) :
  network spec1 = network spec2 ->
  asset (price spec1) = asset (price spec2) ->
  recipient spec1 = recipient spec2 ->
  BigInt (amount (price spec1)) = Normal n ->
  BigInt (amount (price spec2)) = Normal n ->
  amount (price spec1) <> amount (price spec2) ->
  Solana.createSolanaTransactionRequest spec1 recentBlockhash feePayer
  = Solana.createSolanaTransactionRequest spec2 recentBlockhash feePayer
  /\ (assetIsAbsentOr EVM.zeroAddress spec1 = false ->
      EVM.createEVMTransactionRequest spec1 = EVM.createEVMTransactionRequest spec2)
  /\ (forall q rpcUrl,
        Solana.proof_amount q = amount (price spec1) ->
        Solana.verifySolanaPayment q spec2 rpcUrl = false)
  /\ (forall p rpcUrl,
        EVM.proof_amount p = amount (price spec1) ->
        EVM.verifyEVMPayment p spec2 rpcUrl = false).
Proof.
  intros Hnet Hasset Hrcpt H1 H2 Hne. repeat apply conj.
  - unfold Solana.createSolanaTransactionRequest, assetIsAbsentOr, assetAddress,
      Solana.encodeSOLTransfer, Solana.encodeSPLTokenTransfer.
    now rewrite Hasset, Hrcpt, H1, H2.
  - intros Htoken.
    unfold EVM.createEVMTransactionRequest, assetIsAbsentOr, assetAddress,
      EVM.encodeERC20Transfer in *.
    rewrite <- Hasset, Htoken, Hnet, Hrcpt, H1, H2. reflexivity.
  - intros q rpcUrl Hq.
    destruct (Solana.verifySolanaPayment q spec2 rpcUrl) eqn:Hv; [ | reflexivity ].
    apply verifySolanaPayment_true in Hv. destruct Hv as (_ & Hamt & _).
    congruence.
  - intros p rpcUrl Hp.
    destruct (EVM.verifyEVMPayment p spec2 rpcUrl) eqn:Hv; [ | reflexivity ].
    apply verifyEVMPayment_true in Hv. destruct Hv as (_ & Hamt & _).
    congruence.
Qed.

(** 10000000 lamports, in decimal and in hexadecimal. *)
Lemma amount_spelling_splits_building_from_verification_witness :
  Solana.createSolanaTransactionRequest nativeOnSolana blockhash payer
  = Solana.createSolanaTransactionRequest hexAmountOnSolana blockhash payer
  /\ Solana.verifySolanaPayment finalizedOnSolana nativeOnSolana "" = true
  /\ Solana.verifySolanaPayment finalizedOnSolana hexAmountOnSolana "" = false.
Proof.
  pose proof (amount_spelling_splits_building_from_verification
                nativeOnSolana hexAmountOnSolana blockhash payer 10000000
                eq_refl eq_refl eq_refl eq_refl eq_refl ltac:(discriminate))
    as (Hbuild & _ & Hsol & _).
  split; [ exact Hbuild | split; [ reflexivity | ] ].
  apply Hsol. reflexivity.
Defined.

(** X8. Whatever the specification, a request the Solana builder returns
    echoes the blockhash and the fee payer, sets no compute budget and
    holds exactly one instruction; the fee payer is its only signer, and
    its data are bytes. *)
Theorem createSolanaTransactionRequest_one_instruction_one_signer
  (spec : X402PaymentSpec) (recentBlockhash feePayer : string)
  (r : Solana.SolanaTransactionRequest) :
  Solana.createSolanaTransactionRequest spec recentBlockhash feePayer = Normal r ->
  Solana.recentBlockhash r = recentBlockhash
  /\ Solana.feePayer r = feePayer
  /\ Solana.computeBudget r = None
  /\ exists ins,
       Solana.instructions r = [ins]
       /\ Text.signers ins = [feePayer]
       /\ Forall Layout.isByte (Solana.data ins).
Proof.
  intros Hr.
  destruct (createSolanaTransactionRequest_cases spec recentBlockhash feePayer)
    as [(n & _ & _ & E) | [(a & n & _ & _ & _ & E) | (_ & E)]];
    rewrite E in Hr; [ | | discriminate Hr ];
    apply Normal_inj in Hr; subst r; cbn [Solana.recentBlockhash Solana.feePayer
      Solana.computeBudget Solana.instructions];
    (repeat split; eexists; split; [ reflexivity | ]; split; [ reflexivity | ]);
    cbn [Solana.data]; apply Forall_app; split; apply le_bytes_isByte.
Qed.

Lemma createSolanaTransactionRequest_one_instruction_one_signer_witness :
  exists r,
    Solana.createSolanaTransactionRequest usdcOnSolana blockhash payer = Normal r
    /\ Solana.recentBlockhash r = blockhash
    /\ Solana.feePayer r = payer
    /\ Solana.computeBudget r = None
    /\ exists ins,
         Solana.instructions r = [ins]
         /\ Text.signers ins = [payer]
         /\ Forall Layout.isByte (Solana.data ins).
Proof.
  eexists. split; [ vm_compute; reflexivity | ].
  apply (createSolanaTransactionRequest_one_instruction_one_signer
           usdcOnSolana blockhash payer).
  vm_compute. reflexivity.
Defined.

(** X9. The Solana builder fails exactly when [BigInt] cannot read the
    amount, with a SyntaxError, on the native and on the token path alike;
    a fraction such as [0.01] is such an amount. *)
Theorem createSolanaTransactionRequest_fails_on_unreadable_amount
  (spec : X402PaymentSpec) (recentBlockhash feePayer : string) :
  (StringToBigInt (amount (price spec)) = None ->
   Solana.createSolanaTransactionRequest spec recentBlockhash feePayer
   = Throw SyntaxError)
  /\ (StringToBigInt (amount (price spec)) <> None ->
      exists r,
        Solana.createSolanaTransactionRequest spec recentBlockhash feePayer
        = Normal r).
Proof.
  destruct (createSolanaTransactionRequest_cases spec recentBlockhash feePayer)
    as [(n & _ & Hs & E) | [(a & n & _ & _ & Hs & E) | (Hs & E)]];
    rewrite E, Hs.
  - split; [ intros H; discriminate H | intros _; now eexists ].
  - split; [ intros H; discriminate H | intros _; now eexists ].
  - split; [ reflexivity | intros H; now contradiction H ].
Qed.

Lemma createSolanaTransactionRequest_fails_on_unreadable_amount_witness :
  Solana.createSolanaTransactionRequest fractionalOnSolana blockhash payer
  = Throw SyntaxError
  /\ exists r,
       Solana.createSolanaTransactionRequest nativeOnSolana blockhash payer
       = Normal r.
Proof.
  split.
  - apply (proj1 (createSolanaTransactionRequest_fails_on_unreadable_amount
                    fractionalOnSolana blockhash payer)).
    reflexivity.
  - apply (proj2 (createSolanaTransactionRequest_fails_on_unreadable_amount
                    nativeOnSolana blockhash payer)).
    discriminate.
Defined.

End SolanaRequests.

(** ** Token accounts *)

Section TokenAccounts.

Import X402 Examples MoreExamples.

(** The placeholder derivation glues owner and mint with underscores, so an
    underscore in an owner can shift the seam. *)
Example getAssociatedTokenAddress_seam :
  Solana.getAssociatedTokenAddress "a_b" "c"
  = Solana.getAssociatedTokenAddress "a" "b_c".
Proof. reflexivity. Qed.

Lemma getAssociatedTokenAddress_same_mint (owner owner' mint : string) :
  Solana.getAssociatedTokenAddress owner mint
  = Solana.getAssociatedTokenAddress owner' mint <->
  owner = owner'.
Proof.
  split; [ | now intros -> ].
  unfold Solana.getAssociatedTokenAddress. intros H.
  now apply append_inv_tail in H.
Qed.

Lemma getAssociatedTokenAddress_inj (owner mint owner' mint' : string) :
  Text.occurs "_" owner = false ->
  Text.occurs "_" owner' = false ->
  Solana.getAssociatedTokenAddress owner mint
  = Solana.getAssociatedTokenAddress owner' mint' ->
  owner = owner' /\ mint = mint'.
Proof.
  intros Ho Ho' H. unfold Solana.getAssociatedTokenAddress in H.
  change (owner ++ String "_" (mint ++ "_ata")
          = owner' ++ String "_" (mint' ++ "_ata"))%string in H.
  destruct (split_at_first "_" _ _ _ _ Ho Ho' H) as [Howner Hmint].
  split; [ exact Howner | ].
  now apply append_inv_tail in Hmint.
Qed.

(** X10. The derived token account determines owner and mint when the
    owners hold no underscore, as base-58 account addresses never do: two
    such owners, or two mints of one owner, never share a token account. *)
Theorem getAssociatedTokenAddress_injective (owner mint owner' mint' : string) :
  Text.occurs "_" owner = false ->
  Text.occurs "_" owner' = false ->
  owner <> owner' \/ mint <> mint' ->
  Solana.getAssociatedTokenAddress owner mint
  <> Solana.getAssociatedTokenAddress owner' mint'.
Proof.
  intros Ho Ho' Hdiff H.
  destruct (getAssociatedTokenAddress_inj _ _ _ _ Ho Ho' H) as [Howner Hmint].
  destruct Hdiff as [Hd | Hd]; contradiction.
Qed.

(** The payer's and the payee's accounts for one mint; the payer's
    accounts for two mints. *)
Lemma getAssociatedTokenAddress_injective_witness :
  Solana.getAssociatedTokenAddress payer usdcSolana
  <> Solana.getAssociatedTokenAddress solPayee usdcSolana
  /\ Solana.getAssociatedTokenAddress payer usdcSolana
     <> Solana.getAssociatedTokenAddress payer
          "4zMMC9srt5Ri5X14GAgXhaHii3GnPAEERYPJgZJDncDU".
Proof.
  split.
  - apply (getAssociatedTokenAddress_injective payer usdcSolana solPayee usdcSolana);
      [ reflexivity | reflexivity | left; discriminate ].
  - apply (getAssociatedTokenAddress_injective payer usdcSolana payer
             "4zMMC9srt5Ri5X14GAgXhaHii3GnPAEERYPJgZJDncDU");
      [ reflexivity | reflexivity | right; discriminate ].
Defined.

(** X11. In a token transfer the builder returns, the source account (the
    first key) and the destination account (the third) are the token
    accounts of fee payer and recipient, and they are one account exactly
    when the fee payer is the recipient. *)
Theorem token_transfer_source_and_destination
  (spec : X402PaymentSpec) (recentBlockhash feePayer : string)
  (a : Account) (n : Z) :
  asset (price spec) = Some a ->
  address a <> Solana.nativeSentinel ->
  BigInt (amount (price spec)) = Normal n ->
  exists r ins,
    Solana.createSolanaTransactionRequest spec recentBlockhash feePayer = Normal r
    /\ Solana.instructions r = [ins]
    /\ Text.keyAt 0 ins
       = Some (Solana.getAssociatedTokenAddress feePayer (address a))
    /\ Text.keyAt 2 ins
       = Some (Solana.getAssociatedTokenAddress (address (recipient spec))
                 (address a))
    /\ (Text.keyAt 0 ins = Text.keyAt 2 ins <-> feePayer = address (recipient spec)).
Proof.
  intros Ha Hne Hn. eexists. eexists.
  split; [ now apply (createSolanaTransactionRequest_token spec _ _ a n) | ].
  split; [ reflexivity | ].
  split; [ reflexivity | ].
  split; [ reflexivity | ].
  unfold Text.keyAt. cbn [Solana.keys nth_error option_map Solana.pubkey].
  rewrite <- (getAssociatedTokenAddress_same_mint feePayer
                (address (recipient spec)) (address a)).
  split; [ intros H; congruence | now intros -> ].
Qed.

Lemma token_transfer_source_and_destination_witness :
  exists r ins,
    Solana.createSolanaTransactionRequest usdcOnSolana blockhash payer = Normal r
    /\ Solana.instructions r = [ins]
    /\ Text.keyAt 0 ins
       = Some (Solana.getAssociatedTokenAddress payer usdcSolana)
    /\ Text.keyAt 2 ins
       = Some (Solana.getAssociatedTokenAddress solPayee usdcSolana)
    /\ (Text.keyAt 0 ins = Text.keyAt 2 ins <-> payer = solPayee).
Proof.
  apply (token_transfer_source_and_destination usdcOnSolana blockhash payer
           {| address := usdcSolana |} 2500000);
    [ reflexivity | discriminate | reflexivity ].
Defined.

End TokenAccounts.

(** ** What the local checks read of the specification *)

Section VerificationReach.

Import X402 Examples MoreExamples.

Lemma lowerUnit_idempotent (c : ascii) : lowerUnit (lowerUnit c) = lowerUnit c.
Proof. destruct c as [[] [] [] [] [] [] [] []]; reflexivity. Qed.

Lemma toLowerCase_idempotent (s : string) :
  toLowerCase (toLowerCase s) = toLowerCase s.
Proof.
  induction s as [ | c s IH ]; simpl; [ reflexivity | ].
  now rewrite lowerUnit_idempotent, IH.
Qed.

(** X12. The checks read recipient, amount and network of the
    specification and nothing else: the asset, the currency, the scheme
    and the resource are not compared, so a proof accepted for a quote in
    one asset is accepted for the same amount quoted in another. *)
Theorem verification_ignores_the_asset (spec1 spec2 : X402PaymentSpec) :
  toLowerCase (address (recipient spec1)) = toLowerCase (address (recipient spec2)) ->
  amount (price spec1) = amount (price spec2) ->
  network spec1 = network spec2 ->
  (forall p rpcUrl,
      EVM.verifyEVMPayment p spec1 rpcUrl = EVM.verifyEVMPayment p spec2 rpcUrl)
  /\ (forall q rpcUrl,
        Solana.verifySolanaPayment q spec1 rpcUrl
        = Solana.verifySolanaPayment q spec2 rpcUrl).
Proof.
  intros Hrcpt Hamt Hnet. split.
  - intros p rpcUrl. unfold EVM.verifyEVMPayment. now rewrite Hrcpt, Hamt, Hnet.
  - intros q rpcUrl. unfold Solana.verifySolanaPayment. now rewrite Hrcpt, Hamt, Hnet.
Qed.

(** A payment of native value passes for the same number of USDC units. *)
Lemma verification_ignores_the_asset_witness :
  asset (price nativeOnBase) <> asset (price usdcSameAmountOnBase)
  /\ EVM.verifyEVMPayment paidOnBase nativeOnBase "" = true
  /\ EVM.verifyEVMPayment paidOnBase usdcSameAmountOnBase "" = true.
Proof.
  split; [ discriminate | ].
  split; [ reflexivity | ].
  rewrite <- (proj1 (verification_ignores_the_asset nativeOnBase
                       usdcSameAmountOnBase eq_refl eq_refl eq_refl)
                paidOnBase EmptyString).
  reflexivity.
Defined.

(** X13. Lower-casing the payee of a proof never changes the verdict of
    either check. *)
Theorem lower_cased_payee_keeps_the_verdict :
  (forall (p p' : EVM.EVMPaymentProof) (spec : X402PaymentSpec) (rpcUrl : string),
      EVM.proof_to p' = toLowerCase (EVM.proof_to p) ->
      EVM.proof_amount p' = EVM.proof_amount p ->
      EVM.proof_network p' = EVM.proof_network p ->
      EVM.txHash p' = EVM.txHash p ->
      EVM.verifyEVMPayment p' spec rpcUrl = EVM.verifyEVMPayment p spec rpcUrl)
  /\ (forall (q q' : Solana.SolanaPaymentProof) (spec : X402PaymentSpec)
             (rpcUrl : string),
        Solana.proof_to q' = toLowerCase (Solana.proof_to q) ->
        Solana.proof_amount q' = Solana.proof_amount q ->
        Solana.proof_network q' = Solana.proof_network q ->
        Solana.signature q' = Solana.signature q ->
        Solana.confirmationStatus q' = Solana.confirmationStatus q ->
        Solana.verifySolanaPayment q' spec rpcUrl
        = Solana.verifySolanaPayment q spec rpcUrl).
Proof.
  split.
  - intros p p' spec rpcUrl Hto Hamt Hnet Hhash. unfold EVM.verifyEVMPayment.
    now rewrite Hto, toLowerCase_idempotent, Hamt, Hnet, Hhash.
  - intros q q' spec rpcUrl Hto Hamt Hnet Hsig Hstatus.
    unfold Solana.verifySolanaPayment.
    now rewrite Hto, toLowerCase_idempotent, Hamt, Hnet, Hsig, Hstatus.
Qed.

Lemma lower_cased_payee_keeps_the_verdict_witness :
  EVM.proof_to paidOnBase <> EVM.proof_to paidOnBaseAsQuoted
  /\ EVM.verifyEVMPayment paidOnBase nativeOnBase ""
     = EVM.verifyEVMPayment paidOnBaseAsQuoted nativeOnBase ""
  /\ Solana.verifySolanaPayment finalizedToLowerCased nativeOnSolana ""
     = Solana.verifySolanaPayment finalizedOnSolana nativeOnSolana "".
Proof.
  split; [ discriminate | split ].
  - apply (proj1 lower_cased_payee_keeps_the_verdict); reflexivity.
  - apply (proj2 lower_cased_payee_keeps_the_verdict); reflexivity.
Defined.

(** X14. A proof that names the target of the built transaction as its
    payee passes for a native payment, where the target is the recipient;
    for a token payment the target is the token contract, and the proof
    passes exactly when contract and recipient are one address up to
    letter case. *)
Theorem proof_naming_the_transaction_target
  (spec : X402PaymentSpec) (r : EVM.EVMTransactionRequest)
  (p : EVM.EVMPaymentProof) (rpcUrl : string) :
  EVM.createEVMTransactionRequest spec = Normal r ->
  EVM.proof_to p = EVM.to r ->
  EVM.proof_amount p = amount (price spec) ->
  EVM.proof_network p = network spec ->
  EVM.txHash p <> EmptyString ->
  (assetIsAbsentOr EVM.zeroAddress spec = true ->
   EVM.verifyEVMPayment p spec rpcUrl = true)
  /\ (forall a,
        asset (price spec) = Some a -> address a <> EVM.zeroAddress ->
        (EVM.verifyEVMPayment p spec rpcUrl = true <->
         toLowerCase (address a) = toLowerCase (address (recipient spec)))).
Proof.
  intros Hr Hto Hamt Hnet Hhash. split.
  - intros Hnat.
    rewrite (createEVMTransactionRequest_native spec Hnat) in Hr.
    apply Normal_inj in Hr. subst r. cbn [EVM.to] in Hto.
    apply verifyEVMPayment_true. rewrite Hto. now repeat split.
  - intros a Ha Hne.
    destruct (createEVMTransactionRequest_cases spec)
      as [(Hnat & _) | [(a' & n & Hnat & Ha' & _ & E) | (_ & _ & E)]].
    + destruct (assetIsAbsentOr_set _ _ _ Ha Hne) as [Hfalse _]. congruence.
    + rewrite E in Hr. apply Normal_inj in Hr. subst r. cbn [EVM.to] in Hto.
      assert (a' = a) by congruence. subst a'.
      rewrite verifyEVMPayment_true, Hto. tauto.
    + rewrite E in Hr. discriminate Hr.
Qed.

Lemma proof_naming_the_transaction_target_witness :
  EVM.verifyEVMPayment paidOnBaseAsQuoted nativeOnBase "" = true
  /\ (EVM.verifyEVMPayment paidUsdcToContract usdcOnBase "" = true <->
      toLowerCase usdcBase = toLowerCase evmPayee).
Proof.
  split.
  - refine (proj1 (proof_naming_the_transaction_target nativeOnBase _
                     paidOnBaseAsQuoted EmptyString eq_refl eq_refl eq_refl eq_refl _)
              eq_refl).
    discriminate.
  - refine (proj2 (proof_naming_the_transaction_target usdcOnBase _
                     paidUsdcToContract EmptyString eq_refl eq_refl eq_refl eq_refl _)
              {| address := usdcBase |} eq_refl _); discriminate.
Defined.

End VerificationReach.

(** ** The tables: chain ids, endpoints, USDC addresses *)

Section Tables.

Import X402 Examples MoreExamples.

Lemma getChainId_injective (n1 n2 : X402Network) (id : Z) :
  EVM.getChainId n1 = Some id -> EVM.getChainId n2 = Some id -> n1 = n2.
Proof.
  destruct n1, n2; simpl; intros H1 H2; try reflexivity; try discriminate;
    rewrite <- H2 in H1; discriminate H1.
Qed.

Lemma createEVMTransactionRequest_chainId (spec : X402PaymentSpec)
  (r : EVM.EVMTransactionRequest) :
  EVM.createEVMTransactionRequest spec = Normal r ->
  EVM.chainId r = EVM.getChainId (network spec).
Proof.
  intros Hr.
  destruct (createEVMTransactionRequest_cases spec)
    as [(_ & E) | [(a & n & _ & _ & _ & E) | (_ & _ & E)]];
    rewrite E in Hr; [ | | discriminate Hr ];
    apply Normal_inj in Hr; now subst r.
Qed.

(** X15. The chain id ties a request to its network: requests built for
    two networks, one of them an EVM network, differ in [chainId], so a
    request is never valid for signing on a network it was not quoted
    for. *)
Theorem requests_for_two_networks_differ
  (spec1 spec2 : X402PaymentSpec) (r1 r2 : EVM.EVMTransactionRequest) :
  EVM.createEVMTransactionRequest spec1 = Normal r1 ->
  EVM.createEVMTransactionRequest spec2 = Normal r2 ->
  EVM.isEVMNetwork (network spec1) = true ->
  network spec1 <> network spec2 ->
  EVM.chainId r1 <> EVM.chainId r2 /\ r1 <> r2.
Proof.
  intros H1 H2 Hevm Hne.
  assert (Hid : EVM.chainId r1 <> EVM.chainId r2).
  { rewrite (createEVMTransactionRequest_chainId _ _ H1),
      (createEVMTransactionRequest_chainId _ _ H2).
    destruct (EVM.getChainId (network spec1)) as [ id | ] eqn:E1.
    - intros Heq. symmetry in Heq.
      apply Hne. exact (getChainId_injective _ _ id E1 Heq).
    - apply getChainId_defined in Hevm. now contradiction Hevm. }
  split; [ exact Hid | ]. intros ->. now contradiction Hid.
Qed.

(** The same USDC quote on Base and on Polygon. *)
Lemma requests_for_two_networks_differ_witness :
  EVM.createEVMTransactionRequest usdcOnBase
  <> EVM.createEVMTransactionRequest usdcOnPolygon.
Proof.
  destruct (EVM.createEVMTransactionRequest usdcOnBase) as [ r1 | e1 ] eqn:E1;
    [ | vm_compute in E1; discriminate E1 ].
  destruct (EVM.createEVMTransactionRequest usdcOnPolygon) as [ r2 | e2 ] eqn:E2;
    [ | vm_compute in E2; discriminate E2 ].
  intros H. apply Normal_inj in H.
  apply (proj2 (requests_for_two_networks_differ usdcOnBase usdcOnPolygon r1 r2
                  E1 E2 eq_refl ltac:(discriminate))).
  exact H.
Defined.

(** X16. Every network is served by exactly one adapter's table: it has a
    chain id and no Solana endpoint, or an endpoint and no chain id. *)
Theorem every_network_has_one_adapter (n : X402Network) :
  (EVM.isEVMNetwork n = true
   /\ EVM.getChainId n <> None /\ Solana.getSolanaRPC n = None)
  \/ (Solana.isSolanaNetwork n = true
      /\ Solana.getSolanaRPC n <> None /\ EVM.getChainId n = None).
Proof.
  destruct n; simpl;
    first [ left; repeat split; discriminate | right; repeat split; discriminate ].
Qed.

(** X17. The chain-id table of the EVM adapter and the exported
    [CHAIN_IDS] agree: every id the adapter returns is exported, every
    exported id but that of [BSC_TESTNET] is the id of a network, and no
    id is exported twice. *)
Theorem getChainId_agrees_with_CHAIN_IDS :
  (forall n id, EVM.getChainId n = Some id -> In id (map snd CHAIN_IDS))
  /\ (forall key id,
        In (key, id) CHAIN_IDS -> key <> "BSC_TESTNET"%string ->
        exists n, EVM.getChainId n = Some id)
  /\ NoDup (map snd CHAIN_IDS).
Proof.
  repeat apply conj.
  - intros n id H. destruct n; simpl in H; try discriminate H;
      injection H as <-; simpl; tauto.
  - intros key id Hin Hkey. simpl in Hin.
    repeat (destruct Hin as [Hin | Hin];
            [ injection Hin as <- <-;
              first [ now contradiction Hkey
                    | now exists base_mainnet | now exists base_sepolia
                    | now exists polygon | now exists bsc
                    | now exists sei | now exists peaq ] | ]).
    contradiction Hin.
  - simpl. repeat constructor; simpl; intros H;
      repeat (destruct H as [H | H]; [ discriminate H | ]); exact H.
Qed.

(** X18. No USDC address of the table is a native sentinel of either
    adapter: a specification that quotes the table's address as its asset
    gets a contract call to that address from the EVM builder and a
    Token-Program transfer of that mint from the Solana builder. *)
Theorem usdc_quotes_build_token_transfers
  (spec : X402PaymentSpec) (usdc recentBlockhash feePayer : string) (n : Z) :
  USDC_ADDRESSES (network spec) = Some usdc ->
  asset (price spec) = Some {| address := usdc |} ->
  BigInt (amount (price spec)) = Normal n ->
  (exists r callData,
      EVM.createEVMTransactionRequest spec = Normal r
      /\ Shape.isContractCall r usdc callData)
  /\ (exists r payload,
        Solana.createSolanaTransactionRequest spec recentBlockhash feePayer
        = Normal r
        /\ Shape.isTokenTransfer r feePayer (address (recipient spec)) usdc payload).
Proof.
  intros Husdc Ha Hn.
  assert (Hne : usdc <> EVM.zeroAddress /\ usdc <> Solana.nativeSentinel).
  { destruct (network spec); simpl in Husdc; try discriminate Husdc;
      injection Husdc as <-; split; discriminate. }
  destruct Hne as [Hzero Hnative]. split.
  - eexists. eexists. split.
    + now apply (createEVMTransactionRequest_token spec {| address := usdc |} n).
    + repeat split.
  - eexists. eexists. split.
    + now apply (createSolanaTransactionRequest_token spec _ _ {| address := usdc |} n).
    + reflexivity.
Qed.

Lemma usdc_quotes_build_token_transfers_witness :
  exists r callData,
    EVM.createEVMTransactionRequest usdcOnBase = Normal r
    /\ Shape.isContractCall r usdcBase callData.
Proof.
  apply (proj1 (usdc_quotes_build_token_transfers usdcOnBase usdcBase
                  blockhash payer 2500000 eq_refl eq_refl eq_refl)).
Defined.

End Tables.
